(** * pge_plots: the header locator, the table reshaper and the heat-map ticks

    A shallow embedding of the parsing and reshaping core of
    [pge_plots.py].  Text is modelled as [string] (one [ascii] per code
    point, so the development covers documents whose decoded text stays
    below U+0100; on that range the regular-expression class [\d] is
    exactly [0-9]).  Python [int] is [Z], list positions are [nat]. *)

From Stdlib Require Import ZArith Ascii String Floats.
From stdpp Require Import base list strings sorting lexico.

Local Open Scope string_scope.
Local Open Scope list_scope.
Local Open Scope nat_scope.

(** ** Python string primitives used by the program *)

Definition LF : ascii := "010"%char.

(** [s.startswith(tok)] *)
Definition startswith (s tok : string) : bool := String.prefix tok s.

(** [s.endswith(suf)]: compare the tail of [s] of the length of [suf]. *)
Definition endswith (s suf : string) : bool :=
  if (String.length s <? String.length suf)%nat then false
  else String.eqb
         (substring (String.length s - String.length suf) (String.length suf) s)
         suf.

(** [s.split(sep)] for a one-character separator: every occurrence of
    [sep] ends a piece, empty pieces are kept. *)
Fixpoint split (sep : ascii) (s : string) : list string :=
  match s with
  | EmptyString => [EmptyString]
  | String c s' =>
      if Ascii.eqb c sep then EmptyString :: split sep s'
      else match split sep s' with
           | [] => [String c EmptyString]
           | piece :: pieces => String c piece :: pieces
           end
  end.

(** [s.count(sep)] for a one-character [sep]. *)
Fixpoint count (sep : ascii) (s : string) : nat :=
  match s with
  | EmptyString => 0
  | String c s' => (if Ascii.eqb c sep then 1 else 0) + count sep s'
  end.

(** [s.replace(c, empty)] for a one-character [c]. *)
Fixpoint remove_char (c : ascii) (s : string) : string :=
  match s with
  | EmptyString => EmptyString
  | String a s' => if Ascii.eqb a c then remove_char c s' else String a (remove_char c s')
  end.

(** [_file.readlines()] on a binary stream read from its start: a line
    ends after each LF and keeps it; a last line without LF is kept too.
    Decoding is the identity on the modelled range. *)
Fixpoint readlines (content : string) : list string :=
  match content with
  | EmptyString => []
  | String c rest =>
      if Ascii.eqb c LF then String c EmptyString :: readlines rest
      else match readlines rest with
           | [] => [String c EmptyString]
           | line :: lines => String c line :: lines
           end
  end.

(** The class [\d]. *)
Definition is_digit (c : ascii) : bool :=
  (48 <=? nat_of_ascii c)%nat && (nat_of_ascii c <=? 57)%nat.

Definition digit_value (c : ascii) : Z := Z.of_nat (nat_of_ascii c) - 48.

(** [int(s)] on a string of decimal digits. *)
Fixpoint int_acc (acc : Z) (s : string) : Z :=
  match s with
  | EmptyString => acc
  | String c s' => int_acc (10 * acc + digit_value c) s'
  end.

Definition int (s : string) : Z := int_acc 0 s.

(** ** The pattern [(9\d{4})(\d{4})] *)

(** [\d{n}] at the head of [s]: the [n] digits consumed and the rest. *)
Fixpoint take_digits (n : nat) (s : string) : option (string * string) :=
  match n with
  | O => Some (EmptyString, s)
  | S n' =>
      match s with
      | EmptyString => None
      | String c s' =>
          if is_digit c then
            match take_digits n' s' with
            | Some (ds, rest) => Some (String c ds, rest)
            | None => None
            end
          else None
      end
  end.

(** A match of the whole pattern starting at the head of [s]: the two groups. *)
Definition match_zip_here (s : string) : option (string * string) :=
  match s with
  | String c s1 =>
      if Ascii.eqb c "9" then
        match take_digits 4 s1 with
        | Some (d4, s2) =>
            match take_digits 4 s2 with
            | Some (e4, _) => Some (String c d4, e4)
            | None => None
            end
        | None => None
        end
      else None
  | EmptyString => None
  end.

(** [re.findall(r"(9\d{4})(\d{4})", s)]: the matches from left to right,
    none overlapping: after a match the scan resumes behind its nine
    characters ([skip] counts the characters still to pass). *)
Fixpoint findall_zip_from (skip : nat) (s : string) : list (string * string) :=
  match s with
  | EmptyString => []
  | String _ s' =>
      match skip with
      | S k => findall_zip_from k s'
      | O =>
          match match_zip_here s with
          | Some groups => groups :: findall_zip_from 8 s'
          | None => findall_zip_from 0 s'
          end
      end
  end.

Definition findall_zip (s : string) : list (string * string) := findall_zip_from 0 s.

(** ** Header locator *)

Record HeaderAddress := {
  zip_5_4 : Z * Z;
  header_line_num : nat;
  col_names : list string
}.

(** What ends a computation early: [StopException] is what [st.stop()]
    raises after [st.error(shown)] displayed the message; [ValueError] and
    [KeyError] are raised by pandas. *)
Inductive Exception :=
| StopException (shown : string)
| ValueError (msg : string)
| KeyError (label : string).

Inductive Outcome (A : Type) :=
| Returned (a : A)
| Raised (e : Exception).
Arguments Returned {A} a.
Arguments Raised {A} e.

Definition Stopped {A : Type} (error_msg : string) : Outcome A :=
  Raised (StopException error_msg).

Definition no_address_msg : string :=
  "Error: no line starting with Address found. This may be an invalid .csv".
Definition no_zip_msg : string :=
  "Error: no zip code found. This may be an invalid .csv".
Definition no_header_msg : string :=
  "Error: no line starting with TYPE found. This may be an invalid .csv".

(** [next((i for i, line in enumerate(lines) if line.startswith(tok)), None)],
    together with the line found. *)
Definition first_line_startswith (tok : string) (lines : list string)
  : option (nat * string) :=
  list_find (λ line, startswith line tok = true) lines.

Definition address_line_num (lines : list string) : option nat :=
  fst <$> first_line_startswith "Address" lines.

Definition locate_in_lines (lines : list string) : Outcome HeaderAddress :=
  match first_line_startswith "Address" lines with
  | None => Stopped no_address_msg
  | Some (_, address_line) =>
      match findall_zip address_line with
      | [] => Stopped no_zip_msg
      | (g1, g2) :: _ =>
          match first_line_startswith "TYPE" lines with
          | None => Stopped no_header_msg
          | Some (i, header_line) =>
              Returned {| zip_5_4 := (int g1, int g2);
                          header_line_num := i;
                          col_names := split "," header_line |}
          end
      end
  end.

Definition get_zip_header_line_col_names (file : string) : Outcome HeaderAddress :=
  locate_in_lines (readlines file).

(** ** Calendar values: [datetime.date] and [datetime.time] *)

Record date := { year : nat; month : nat; day : nat }.
Record time := { hour : nat; minute : nat; second : nat; microsecond : nat }.

(** The invariant of every [datetime.date] object (day-of-month bound
    by the longest month; nothing below needs the exact month lengths). *)
Definition date_ok (d : date) : Prop :=
  1 ≤ year d < 10 ^ 4 ∧ 1 ≤ month d ≤ 12 ∧ 1 ≤ day d ≤ 31.

(** Comparison of dates and of times, as Python orders them. *)
Definition date_leb (a b : date) : bool :=
  match (year a ?= year b)%nat with
  | Lt => true
  | Gt => false
  | Eq => match (month a ?= month b)%nat with
          | Lt => true
          | Gt => false
          | Eq => (day a <=? day b)%nat
          end
  end.

Definition time_leb (a b : time) : bool :=
  match (hour a ?= hour b)%nat with
  | Lt => true
  | Gt => false
  | Eq => match (minute a ?= minute b)%nat with
          | Lt => true
          | Gt => false
          | Eq => match (second a ?= second b)%nat with
                  | Lt => true
                  | Gt => false
                  | Eq => (microsecond a <=? microsecond b)%nat
                  end
          end
  end.

Definition date_le (a b : date) : Prop := date_leb a b = true.
Definition time_le (a b : time) : Prop := time_leb a b = true.

#[global] Instance date_eq_dec : EqDecision date.
Proof. solve_decision. Defined.
#[global] Instance time_eq_dec : EqDecision time.
Proof. solve_decision. Defined.
#[global] Instance date_le_dec : RelDecision date_le.
Proof. intros a b. unfold date_le. apply _. Defined.
#[global] Instance time_le_dec : RelDecision time_le.
Proof. intros a b. unfold time_le. apply _. Defined.

(** *** Formatting *)

Definition digit_char (n : nat) : ascii := ascii_of_nat (48 + n mod 10).

(** The decimal digits of [n], most significant first ([fuel] bounds the
    number of digits). *)
Fixpoint decimal_acc (fuel n : nat) (acc : string) : string :=
  match fuel with
  | O => acc
  | S fuel' =>
      let acc' := String (digit_char n) acc in
      if (n / 10 =? 0)%nat then acc' else decimal_acc fuel' (n / 10) acc'
  end.

Definition decimal (n : nat) : string := decimal_acc (S n) n EmptyString.

Fixpoint zeros (k : nat) : string :=
  match k with
  | O => EmptyString
  | S k' => String "0" (zeros k')
  end.

(** [%0wd] and the format spec [0w]: decimal, padded with zeros on the
    left up to width [w]. *)
Definition zero_padded (w n : nat) : string :=
  let s := decimal n in zeros (w - String.length s) +:+ s.

(** [str(d)] of a date: ISO format [YYYY-MM-DD]. *)
Definition date_str (d : date) : string :=
  zero_padded 4 (year d) +:+ "-" +:+ zero_padded 2 (month d) +:+ "-" +:+ zero_padded 2 (day d).

Definition month_order : list string :=
  ["Jan"; "Feb"; "Mar"; "Apr"; "May"; "Jun"; "Jul"; "Aug"; "Sep"; "Oct"; "Nov"; "Dec"].

Definition hour_order : list string :=
  ["00:00"; "01:00"; "02:00"; "03:00"; "04:00"; "05:00"; "06:00"; "07:00";
   "08:00"; "09:00"; "10:00"; "11:00"; "12:00"; "13:00"; "14:00"; "15:00";
   "16:00"; "17:00"; "18:00"; "19:00"; "20:00"; "21:00"; "22:00"; "23:00"].

(** [d.strftime("%b %Y")]: the abbreviated month name of the default
    locale (the names of [month_order]) and the year as documented, in
    four digits. *)
Definition strftime_b_Y (d : date) : string :=
  default EmptyString (month_order !! (month d - 1)) +:+ " " +:+ zero_padded 4 (year d).

(** ** Tables *)

(** A pandas frame in wide form: the row labels, the column labels and
    the cells row by row; a missing cell (NaN) is [None]. *)
Record DataFrame (R C V : Type) := {
  index : list R;
  columns : list C;
  values : list (list (option V))
}.
Arguments index {R C V} _.
Arguments columns {R C V} _.
Arguments values {R C V} _.

(** [df.iat[i, j]] *)
Definition iat {R C V} (df : DataFrame R C V) (i j : nat) : option V :=
  row ← values df !! i; mjoin (row !! j).

Definition duplicate_entries_msg : string :=
  "Index contains duplicate entries, cannot reshape".

Section Reshaper.
Context {Row K R C V : Type}.
Context `{EqDecision K, EqDecision R, EqDecision C}.
Context (leR : relation R) `{!RelDecision leR}.
Context (leC : relation C) `{!RelDecision leC}.

(** [df.duplicated(subset=..., keep="first")]: the mask is set on every
    row whose key was met on an earlier row. *)
Fixpoint duplicated_from (seen keys : list K) : list bool :=
  match keys with
  | [] => []
  | k :: keys' => bool_decide (k ∈ seen) :: duplicated_from (k :: seen) keys'
  end.

Definition duplicated (subset : Row → K) (df : list Row) : list bool :=
  duplicated_from [] (subset <$> df).

(** [df[mask]] with a boolean mask *)
Fixpoint boolean_index (df : list Row) (mask : list bool) : list Row :=
  match df, mask with
  | row :: df', b :: mask' =>
      if b then row :: boolean_index df' mask' else boolean_index df' mask'
  | _, _ => []
  end.

(** [df[~df.duplicated(subset=..., keep="first")]] *)
Definition drop_duplicated (subset : Row → K) (df : list Row) : list Row :=
  boolean_index df (negb <$> duplicated subset df).

(** The labels of one axis of a pivot: the distinct keys, sorted. *)
Definition axis_labels {A} `{EqDecision A} (le : relation A) `{!RelDecision le}
    (keys : list A) : list A :=
  merge_sort le (remove_dups keys).

(** [df.pivot(index=..., columns=..., values=...)].  pandas marks the
    cell of every row in a mask over index x columns and raises when
    fewer cells are marked than there are rows; otherwise each cell
    holds the value of the row that maps to it, and NaN where none does. *)
Definition pivot (index_of : Row → R) (columns_of : Row → C) (values_of : Row → V)
    (df : list Row) : Outcome (DataFrame R C V) :=
  let cell_of row := (index_of row, columns_of row) in
  let marked := remove_dups (cell_of <$> df) in
  if decide (length marked < length df)%nat then
    Raised (ValueError duplicate_entries_msg)
  else
    let rows := axis_labels leR (index_of <$> df) in
    let cols := axis_labels leC (columns_of <$> df) in
    Returned {|
      index := rows;
      columns := cols;
      values :=
        (λ r, (λ c, values_of ∘ snd <$> list_find (λ row, cell_of row = (r, c)) df)
              <$> cols) <$> rows
    |}.
End Reshaper.

(** ** Heat-map ticks *)

Record CustomTicks := {
  x_ticks : list nat;
  x_tick_labels : list string;
  y_ticks : list nat;
  y_tick_labels : list string
}.

(** [index.get_loc(label)] on an index without repeated labels: the
    position of the label, [None] for the [KeyError] of an absent one. *)
Definition get_loc {C} `{EqDecision C} (labels : list C) (label : C) : option nat :=
  fst <$> list_find (λ c, c = label) labels.

Definition get_heatmap_ticks {R V} (df : DataFrame R date V) : option CustomTicks :=
  let first_of_month_cols :=
    filter (λ col, endswith (date_str col) "01" = true) (columns df) in
  custom_x_ticks ← mapM (get_loc (columns df)) first_of_month_cols;
  let custom_x_tick_labels :=
    strftime_b_Y <$> filter (λ col, endswith (date_str col) "01" = true) (columns df) in
  let custom_y_ticks := (λ i, i * 4) <$> seq 0 7 in
  let custom_y_tick_labels := (λ i, zero_padded 2 i +:+ ":00") <$> custom_y_ticks in
  Some {| x_ticks := custom_x_ticks;
          x_tick_labels := custom_x_tick_labels;
          y_ticks := custom_y_ticks;
          y_tick_labels := custom_y_tick_labels |}.

(** ** Reading the usage table *)

(** [float(s)] on a plain decimal literal: an optional sign, digits, and
    optionally a point and more digits.  With a mantissa below 2^53 and at
    most 18 fraction digits the mantissa and the power of ten fit a
    machine integer and are binary64 numbers, so one correctly rounded
    division gives the correctly rounded value that Python returns.  [Unmodelled] stands for
    every other text (some of which Python rejects with an error and some
    of which it accepts, such as exponent forms). *)
Inductive FloatLiteral :=
| FloatValue (f : float)
| Unmodelled.

Fixpoint all_digits (s : string) : bool :=
  match s with
  | EmptyString => true
  | String c s' => is_digit c && all_digits s'
  end.

Definition float_of_Z (z : Z) : float := PrimFloat.of_uint63 (Uint63.of_Z z).

Definition unsigned_float_of_str (s : string) : FloatLiteral :=
  let parts := split "." s in
  match parts with
  | [ip] | [ip; EmptyString] =>
      if all_digits ip && (1 <=? String.length ip)%nat && (int ip <? 2 ^ 53)%Z
      then FloatValue (float_of_Z (int ip)) else Unmodelled
  | [ip; fp] =>
      if all_digits ip && all_digits fp && (String.length fp <=? 18)%nat
         && (int (ip +:+ fp) <? 2 ^ 53)%Z
      then FloatValue (float_of_Z (int (ip +:+ fp))
                       / float_of_Z (10 ^ Z.of_nat (String.length fp)))%float
      else Unmodelled
  | _ => Unmodelled
  end.

Definition float_of_str (s : string) : FloatLiteral :=
  match s with
  | String "-" s' =>
      match unsigned_float_of_str s' with
      | FloatValue f => FloatValue (- f)%float
      | Unmodelled => Unmodelled
      end
  | String "+" s' => unsigned_float_of_str s'
  | _ => unsigned_float_of_str s
  end.

(** A row as [pd.read_csv] delivers it (the columns the program goes on
    to use), and the row after [read_process_csv]. *)
Record RawUsageRow := {
  raw_DATE : string;
  raw_START_TIME : string;
  raw_USAGE : float;
  raw_COST : string
}.

Record UsageRecord := {
  DATE : string;
  START_TIME : string;
  USAGE : float;
  COST : float;
  PRICEPERKWH : float
}.

(** [_df.COST.apply(lambda x: float(x.replace("$", empty)))] followed by
    [_df.COST / _df.USAGE], on one row; [None] when the cost text is
    outside the literals modelled by [float_of_str]. *)
Definition process_row (r : RawUsageRow) : option UsageRecord :=
  match float_of_str (remove_char "$" (raw_COST r)) with
  | FloatValue cost =>
      Some {| DATE := raw_DATE r;
              START_TIME := raw_START_TIME r;
              USAGE := raw_USAGE r;
              COST := cost;
              PRICEPERKWH := (cost / raw_USAGE r)%float |}
  | Unmodelled => None
  end.

(** The column labels through [read_process_csv]: [names=] hands the
    header's names to the frame as they are, [drop(columns=["TYPE"])]
    raises on a missing label, [rename] replaces one label. *)
Definition read_csv_columns (names : list string) : list string := names.

Definition drop_column (label : string) (cols : list string) : Outcome (list string) :=
  if decide (label ∈ cols) then Returned (filter (λ c, c ≠ label) cols)
  else Raised (KeyError label).

Definition rename_column (old new : string) (cols : list string) : list string :=
  (λ c, if decide (c = old) then new else c) <$> cols.

Definition read_process_csv_columns (header_address : HeaderAddress)
  : Outcome (list string) :=
  match drop_column "TYPE" (read_csv_columns (col_names header_address)) with
  | Returned cols => Returned (rename_column "USAGE (kWh)" "USAGE" cols)
  | Raised e => Raised e
  end.

(** ** The two pivots of the program *)

(** A row of the weather table (the columns the program goes on to use). *)
Module Weather.
Record Observation := {
  DATE : date;
  TIME : time;
  TEMP_F : float
}.
End Weather.

Definition electric_map_df (df : list UsageRecord)
  : Outcome (DataFrame string string float) :=
  pivot String.le String.le START_TIME DATE USAGE df.

Definition deduplicate_weather (weather_hourly_df : list Weather.Observation)
  : list Weather.Observation :=
  drop_duplicated (λ row, (Weather.DATE row, Weather.TIME row)) weather_hourly_df.

Definition weather_map_df (weather_hourly_df : list Weather.Observation)
  : Outcome (DataFrame time date float) :=
  pivot time_le date_le Weather.TIME Weather.DATE Weather.TEMP_F
    (deduplicate_weather weather_hourly_df).

(** ** Notions of the spec *)

(** *** The marker lines and the embedded zip code *)

(** Stated from the spec: [line], at position [i], is the first line of
    the document that begins with [tok]. *)
Definition first_line_with (tok : string) (lines : list string)
    (i : nat) (line : string) : Prop :=
  lines !! i = Some line ∧ startswith line tok = true ∧
  ∀ j l, lines !! j = Some l → j < i → startswith l tok = false.

(** Nine decimal digits of which the first is 9. *)
Definition zip_code_text (code : string) : Prop :=
  String.length code = 9%nat ∧ all_digits code = true ∧ startswith code "9" = true.

Definition embeds_zip (line : string) : Prop :=
  ∃ pre code post, line = pre +:+ code +:+ post ∧ zip_code_text code.

(** *** The ticks *)

(** Stated from the spec: the columns whose date is the first day of its
    month, each with its position ([i] is the position of the head). *)
Fixpoint first_of_month_from (i : nat) (cols : list date) : list (nat * date) :=
  match cols with
  | [] => []
  | d :: cols' =>
      if decide (day d = 1) then (i, d) :: first_of_month_from (S i) cols'
      else first_of_month_from (S i) cols'
  end.

(** Stated from the spec: the row positions 0, 4, ..., 24 that are
    positions of a row of the frame. *)
Definition y_ticks_in_range {R C V} (df : DataFrame R C V) : list nat :=
  filter (λ i, i < length (index df)) [0; 4; 8; 12; 16; 20; 24].

(** ** Sample documents and tables *)

Definition sample_file : string :=
  "Name,DOE JANE" +:+ String LF EmptyString +:+
  "Address,1 MAIN ST SAN FRANCISCO CA 941101234" +:+ String LF EmptyString +:+
  "TYPE,DATE,START TIME,END TIME,USAGE (kWh),COST,NOTES" +:+ String LF EmptyString +:+
  "Electric usage,2023-12-19,00:00,00:59,0.25,$0.09" +:+ String LF EmptyString.

Definition sample_header_address : HeaderAddress :=
  {| zip_5_4 := (94110, 1234)%Z;
     header_line_num := 2;
     col_names := ["TYPE"; "DATE"; "START TIME"; "END TIME"; "USAGE (kWh)"; "COST";
                   "NOTES" +:+ String LF EmptyString] |}.

(** The header line comes first and the address line second. *)
Definition header_first_file : string :=
  "TYPE,DATE,START TIME,END TIME,USAGE (kWh),COST,NOTES" +:+ String LF EmptyString +:+
  "Address,1 MAIN ST SAN FRANCISCO CA 941101234" +:+ String LF EmptyString.

(** A ten-digit number and no nine-digit one in the address line. *)
Definition long_run_file : string :=
  "Address,1 MAIN ST SAN FRANCISCO CA 9411012345" +:+ String LF EmptyString +:+
  "TYPE,DATE" +:+ String LF EmptyString.

Definition midnight_usage : UsageRecord :=
  {| DATE := "2024-01-01"; START_TIME := "00:00";
     USAGE := 0.25; COST := 0.125; PRICEPERKWH := 0.5 |}.

(** One usage row for each of the 24 hours of a day. *)
Definition full_day_usage : list UsageRecord :=
  (λ h, {| DATE := "2024-01-01"; START_TIME := h;
           USAGE := 0.25; COST := 0.125; PRICEPERKWH := 0.5 |}) <$> hour_order.

Definition repeated_hour_usage : list UsageRecord :=
  [ {| DATE := "2024-11-03"; START_TIME := "01:00";
       USAGE := 0.25; COST := 0.125; PRICEPERKWH := 0.5 |};
    {| DATE := "2024-11-03"; START_TIME := "01:00";
       USAGE := 0.5; COST := 0.25; PRICEPERKWH := 0.5 |} ].

Definition january_first : date := {| year := 2024; month := 1; day := 1 |}.
Definition january_second : date := {| year := 2024; month := 1; day := 2 |}.
Definition february_first : date := {| year := 2024; month := 2; day := 1 |}.

Definition on_the_hour (h : nat) : time :=
  {| hour := h; minute := 0; second := 0; microsecond := 0 |}.

(** One observation for each of the 24 hours of a day. *)
Definition hourly_weather (d : date) : list Weather.Observation :=
  (λ h, {| Weather.DATE := d; Weather.TIME := on_the_hour h; Weather.TEMP_F := 50 |})
  <$> seq 0 24.

(** The hour from 01:00 to 02:00 occurs twice on the day the clocks go back. *)
Definition clocks_back : date := {| year := 2024; month := 11; day := 3 |}.

Definition repeated_hour_weather : list Weather.Observation :=
  [ {| Weather.DATE := clocks_back; Weather.TIME := on_the_hour 0; Weather.TEMP_F := 58 |};
    {| Weather.DATE := clocks_back; Weather.TIME := on_the_hour 1; Weather.TEMP_F := 57 |};
    {| Weather.DATE := clocks_back; Weather.TIME := on_the_hour 1; Weather.TEMP_F := 56 |};
    {| Weather.DATE := clocks_back; Weather.TIME := on_the_hour 2; Weather.TEMP_F := 55 |} ].

Definition three_day_frame : DataFrame time date float :=
  {| index := [on_the_hour 0];
     columns := [january_first; january_second; february_first];
     values := [[Some 50%float; None; Some 51%float]] |}.

Definition zero_usage_row : RawUsageRow :=
  {| raw_DATE := "2024-01-01"; raw_START_TIME := "03:00";
     raw_USAGE := 0.0; raw_COST := "$0.00" |}.

#[global] Instance date_ok_dec d : Decision (date_ok d).
Proof. unfold date_ok. apply _. Defined.

(** ** Further parts of the program *)


(** [_df.temp * 9 / 5 + 32], on one row of the weather table. *)
Definition TEMP_F_of_temp (temp : float) : float := (temp * 9 / 5 + 32)%float.

(** A document with the header line alone in its column list. *)
Definition one_column_file : string :=
  "Address,1 MAIN ST SAN FRANCISCO CA 941101234" +:+ String LF EmptyString +:+
  "TYPE" +:+ String LF EmptyString.

(** Two usage rows on different days and hours. *)
Definition two_unit_usage : list UsageRecord :=
  [ {| DATE := "2024-01-01"; START_TIME := "00:00";
       USAGE := 0.25; COST := 0.125; PRICEPERKWH := 0.5 |};
    {| DATE := "2024-01-02"; START_TIME := "01:00";
       USAGE := 0.5; COST := 0.25; PRICEPERKWH := 0.5 |} ].

(** * Properties *)

(** ** Strings *)

Lemma app_cons c s t : String c s +:+ t = String c (s +:+ t).
Proof. reflexivity. Qed.

Lemma app_empty_l s : EmptyString +:+ s = s.
Proof. reflexivity. Qed.

Lemma app_assoc_str s t u : (s +:+ t) +:+ u = s +:+ (t +:+ u).
Proof. induction s as [|c s IH]; [done|]. by rewrite !app_cons, IH. Qed.

Lemma length_app_str s t :
  String.length (s +:+ t) = (String.length s + String.length t)%nat.
Proof. induction s as [|c s IH]; [done|]. rewrite app_cons. simpl. by rewrite IH. Qed.

Lemma all_digits_app s t : all_digits (s +:+ t) = all_digits s && all_digits t.
Proof.
  induction s as [|c s IH]; [done|].
  rewrite app_cons. simpl. rewrite IH. by destruct (is_digit c).
Qed.

Lemma count_app c s t : count c (s +:+ t) = count c s + count c t.
Proof. induction s as [|a s IH]; [done|]. rewrite app_cons. simpl. rewrite IH. lia. Qed.

Lemma split_nonempty sep s : split sep s ≠ [].
Proof.
  destruct s as [|c s]; simpl; [done|].
  destruct (Ascii.eqb c sep); [done|]. by destruct (split sep s).
Qed.

Lemma length_split sep s : length (split sep s) = (count sep s + 1)%nat.
Proof.
  induction s as [|c s IH]; simpl; [done|].
  destruct (Ascii.eqb c sep); simpl; [by rewrite IH|].
  pose proof (split_nonempty sep s).
  destruct (split sep s); [done|]. simpl in *. lia.
Qed.

Lemma split_snoc sep c s :
  Ascii.eqb c sep = false →
  ∃ pieces piece,
    split sep s = pieces ++ [piece] ∧
    split sep (s +:+ String c EmptyString) = pieces ++ [piece +:+ String c EmptyString].
Proof.
  intros Hc. induction s as [|a s (pieces & piece & Hs & Hsc)].
  - exists [], EmptyString. split; [done|].
    rewrite app_empty_l. simpl. by rewrite Hc.
  - rewrite app_cons. simpl. rewrite Hs, Hsc.
    destruct (Ascii.eqb a sep).
    + by exists (EmptyString :: pieces), piece.
    + destruct pieces as [|p ps]; simpl.
      * by exists [], (String a piece).
      * by exists (String a p :: ps), piece.
Qed.

(** ** The zip pattern *)

Lemma startswith_cons c tok s :
  startswith (String c s) (String c tok) = startswith s tok.
Proof. unfold startswith. simpl. by destruct (ascii_dec c c). Qed.

Lemma startswith_cons_inv a c tok s :
  startswith (String c s) (String a tok) = true → a = c ∧ startswith s tok = true.
Proof. unfold startswith. simpl. by destruct (ascii_dec a c). Qed.

Lemma startswith_9 g : startswith g "9" = true ↔ ∃ d, g = String "9" d.
Proof.
  split.
  - destruct g as [|c d]; [done|].
    intros [<- _]%startswith_cons_inv. eauto.
  - intros [d ->]. rewrite startswith_cons. by destruct d.
Qed.

Lemma digit_value_range c : is_digit c = true → (0 ≤ digit_value c ≤ 9)%Z.
Proof.
  unfold is_digit, digit_value.
  rewrite andb_true_iff, !Nat.leb_le. lia.
Qed.

Lemma int_acc_range acc s :
  all_digits s = true →
  (acc * 10 ^ Z.of_nat (String.length s) ≤ int_acc acc s
   ≤ acc * 10 ^ Z.of_nat (String.length s) + 10 ^ Z.of_nat (String.length s) - 1)%Z.
Proof.
  revert acc. induction s as [|c s IH]; intros acc Hs.
  - simpl. lia.
  - simpl in Hs. apply andb_true_iff in Hs as [Hc Hs].
    apply digit_value_range in Hc.
    specialize (IH (10 * acc + digit_value c)%Z Hs).
    cbn [String.length int_acc].
    rewrite Nat2Z.inj_succ, Z.pow_succ_r by lia.
    assert (0 < 10 ^ Z.of_nat (String.length s))%Z by (apply Z.pow_pos_nonneg; lia).
    nia.
Qed.

Lemma take_digits_Some n s ds rest :
  take_digits n s = Some (ds, rest) ↔
  s = ds +:+ rest ∧ String.length ds = n ∧ all_digits ds = true.
Proof.
  revert s ds rest. induction n as [|n IH]; intros s ds rest; simpl.
  - split.
    + intros [= <- <-]. done.
    + intros (-> & Hlen & _). by destruct ds.
  - destruct s as [|c s].
    + split; [done|]. intros (Hs & Hlen & _). by destruct ds.
    + destruct (is_digit c) eqn:Hc.
      * destruct (take_digits n s) as [[ds' rest']|] eqn:Ht.
        -- apply IH in Ht as (-> & Hlen & Hds). split.
           ++ intros [= <- <-]. simpl. by rewrite Hc, Hlen.
           ++ intros (Hs & Hlen' & Hds'). destruct ds as [|c' ds]; [done|].
              rewrite app_cons in Hs. injection Hs as <- Hs.
              simpl in Hlen', Hds'. apply andb_true_iff in Hds' as [_ Hds'].
              assert (take_digits n (ds' +:+ rest') = Some (ds, rest)) as Ht'.
              { apply IH. split_and!; [done|lia|done]. }
              assert (take_digits n (ds' +:+ rest') = Some (ds', rest')) as Ht''.
              { apply IH. done. }
              congruence.
        -- split; [done|]. intros (Hs & Hlen' & Hds').
           destruct ds as [|c' ds]; [done|].
           rewrite app_cons in Hs. injection Hs as <- Hs.
           simpl in Hlen', Hds'. apply andb_true_iff in Hds' as [_ Hds'].
           assert (take_digits n s = Some (ds, rest)) as Ht'.
           { apply IH. split_and!; [done|lia|done]. }
           congruence.
      * split; [done|]. intros (Hs & Hlen' & Hds').
        destruct ds as [|c' ds]; [done|].
        rewrite app_cons in Hs. injection Hs as <- Hs.
        simpl in Hds'. rewrite Hc in Hds'. done.
Qed.

Lemma match_zip_here_Some s g1 g2 :
  match_zip_here s = Some (g1, g2) ↔
  ∃ post, s = g1 +:+ g2 +:+ post ∧
          String.length g1 = 5 ∧ String.length g2 = 4 ∧
          all_digits g1 = true ∧ all_digits g2 = true ∧ startswith g1 "9" = true.
Proof.
  unfold match_zip_here. split.
  - destruct s as [|c s1]; [done|].
    destruct (Ascii.eqb c "9") eqn:Hc; [|done].
    apply Ascii.eqb_eq in Hc as ->.
    destruct (take_digits 4 s1) as [[d4 s2]|] eqn:H1; [|done].
    destruct (take_digits 4 s2) as [[e4 post]|] eqn:H2; [|done].
    intros [= <- <-].
    apply take_digits_Some in H1 as (-> & Hl1 & Hd1).
    apply take_digits_Some in H2 as (-> & Hl2 & Hd2).
    exists post. rewrite app_cons. simpl. rewrite Hl1, Hd1.
    split_and!; try done. by destruct d4.
  - intros (post & -> & Hl1 & Hl2 & Hd1 & Hd2 & [d4 ->]%startswith_9).
    rewrite app_cons. simpl in Hl1, Hd1.
    assert (take_digits 4 (d4 +:+ g2 +:+ post) = Some (d4, g2 +:+ post)) as ->.
    { apply take_digits_Some. split_and!; [done|lia|done]. }
    assert (take_digits 4 (g2 +:+ post) = Some (g2, post)) as ->.
    { by apply take_digits_Some. }
    done.
Qed.

Lemma match_zip_here_range s g1 g2 :
  match_zip_here s = Some (g1, g2) →
  (90000 ≤ int g1 ≤ 99999)%Z ∧ (0 ≤ int g2 ≤ 9999)%Z.
Proof.
  intros (post & _ & Hl1 & Hl2 & Hd1 & Hd2 & H9)%match_zip_here_Some.
  apply startswith_9 in H9 as [d4 ->].
  simpl in Hl1, Hd1. unfold int. cbn [int_acc].
  pose proof (int_acc_range (10 * 0 + digit_value "9") d4 Hd1) as R1.
  pose proof (int_acc_range 0 g2 Hd2) as R2.
  assert (String.length d4 = 4) as E by lia.
  rewrite E in R1. rewrite Hl2 in R2.
  change (digit_value "9") with 9%Z in *.
  change (10 ^ Z.of_nat 4)%Z with 10000%Z in *. lia.
Qed.

Lemma findall_zip_from_elem k s g :
  g ∈ findall_zip_from k s →
  ∃ pre sfx, s = pre +:+ sfx ∧ match_zip_here sfx = Some g.
Proof.
  revert k. induction s as [|c s IH]; intros k; [by intros ?%elem_of_nil|].
  cbn [findall_zip_from]. destruct k as [|k].
  - destruct (match_zip_here (String c s)) as [g'|] eqn:Hm.
    + intros [->|Hin]%elem_of_cons.
      * by exists EmptyString, (String c s).
      * destruct (IH _ Hin) as (pre & sfx & -> & ?).
        by exists (String c pre), sfx.
    + intros Hin. destruct (IH _ Hin) as (pre & sfx & -> & ?).
      by exists (String c pre), sfx.
  - intros Hin. destruct (IH _ Hin) as (pre & sfx & -> & ?).
    by exists (String c pre), sfx.
Qed.

Lemma findall_zip_match pre sfx g :
  match_zip_here sfx = Some g → findall_zip (pre +:+ sfx) ≠ [].
Proof.
  intros Hm. unfold findall_zip. induction pre as [|c pre IH].
  - rewrite app_empty_l. destruct sfx as [|c s]; [done|].
    cbn [findall_zip_from]. by rewrite Hm.
  - rewrite app_cons. cbn [findall_zip_from].
    by destruct (match_zip_here (String c (pre +:+ sfx))).
Qed.

Lemma findall_zip_head s g :
  match_zip_here s = Some g → ∃ gs, findall_zip s = g :: gs.
Proof.
  intros Hm. destruct s as [|c s]; [done|].
  unfold findall_zip. cbn [findall_zip_from]. rewrite Hm. eauto.
Qed.

(** The search succeeds exactly on the lines that embed a zip code. *)
Lemma findall_zip_embeds line : findall_zip line ≠ [] ↔ embeds_zip line.
Proof.
  split.
  - destruct (findall_zip line) as [|[g1 g2] gs] eqn:Hf; [done|]. intros _.
    destruct (findall_zip_from_elem 0 line (g1, g2)) as (pre & sfx & -> & Hm).
    { unfold findall_zip in Hf. rewrite Hf. left. }
    apply match_zip_here_Some in Hm as (post & -> & Hl1 & Hl2 & Hd1 & Hd2 & H9).
    exists pre, (g1 +:+ g2), post. split; [by rewrite app_assoc_str|].
    split_and!.
    + rewrite length_app_str. lia.
    + by rewrite all_digits_app, Hd1, Hd2.
    + apply startswith_9 in H9 as [d4 ->]. apply startswith_9.
      exists (d4 +:+ g2). by rewrite app_cons.
  - intros (pre & code & post & -> & Hlen & Hd & H9).
    destruct code as [|c1 [|c2 [|c3 [|c4 [|c5 [|c6 [|c7 [|c8 [|c9 [|]]]]]]]]]]; try done.
    clear Hlen.
    apply (findall_zip_match pre _
             (String c1 (String c2 (String c3 (String c4 (String c5 EmptyString)))),
              String c6 (String c7 (String c8 (String c9 EmptyString))))).
    apply match_zip_here_Some. exists post.
    simpl in Hd. repeat (apply andb_true_iff in Hd as [? Hd]).
    split_and!; try done; simpl;
      by repeat match goal with Hc : is_digit _ = true |- _ => rewrite Hc; clear Hc end.
Qed.

Lemma findall_zip_skip_no_nine pre s :
  count "9" pre = 0 → findall_zip (pre +:+ s) = findall_zip s.
Proof.
  unfold findall_zip. induction pre as [|c pre IH]; intros Hc; [done|].
  rewrite app_cons. cbn [findall_zip_from]. simpl in Hc.
  destruct (Ascii.eqb c "9") eqn:E; [done|].
  unfold match_zip_here. rewrite E. by apply IH.
Qed.

(** ** The header locator *)

Lemma first_line_startswith_Some tok lines i line :
  first_line_startswith tok lines = Some (i, line) ↔ first_line_with tok lines i line.
Proof.
  unfold first_line_startswith, first_line_with. rewrite list_find_Some.
  split; intros (? & ? & Hmin); split_and!; try done.
  - intros j l ??. apply not_true_is_false. eauto.
  - intros j l ?? E. by rewrite (Hmin j l) in E.
Qed.

Lemma first_line_startswith_None tok lines :
  first_line_startswith tok lines = None ↔
  Forall (λ line, startswith line tok = false) lines.
Proof.
  unfold first_line_startswith. rewrite list_find_None.
  apply Forall_iff. intros l. by destruct (startswith l tok).
Qed.

Lemma locate_in_lines_Returned lines ha :
  locate_in_lines lines = Returned ha ↔
  ∃ a address_line g1 g2 gs h header_line,
    first_line_startswith "Address" lines = Some (a, address_line) ∧
    findall_zip address_line = (g1, g2) :: gs ∧
    first_line_startswith "TYPE" lines = Some (h, header_line) ∧
    ha = {| zip_5_4 := (int g1, int g2);
            header_line_num := h;
            col_names := split "," header_line |}.
Proof.
  unfold locate_in_lines. split.
  - destruct (first_line_startswith "Address" lines) as [[a al]|]; [|done].
    destruct (findall_zip al) as [|[g1 g2] gs] eqn:Hf; [done|].
    destruct (first_line_startswith "TYPE" lines) as [[h hl]|]; [|done].
    intros [= <-]. exists a, al, g1, g2, gs, h, hl. split_and!; done.
  - intros (a & al & g1 & g2 & gs & h & hl & -> & -> & -> & ->). done.
Qed.

Lemma address_is_not_header line :
  startswith line "Address" = true → startswith line "TYPE" = true → False.
Proof.
  destruct line as [|c s]; [done|].
  intros [<- _]%startswith_cons_inv [? _]%startswith_cons_inv. done.
Qed.

Lemma returned_zip_range lines ha :
  locate_in_lines lines = Returned ha → (90000 ≤ (zip_5_4 ha).1 ≤ 99999)%Z.
Proof.
  intros (a & al & g1 & g2 & gs & h & hl & _ & Hz & _ & ->)%locate_in_lines_Returned.
  destruct (findall_zip_from_elem 0 al (g1, g2)) as (pre & sfx & _ & Hm).
  { unfold findall_zip in Hz. rewrite Hz. left. }
  apply match_zip_here_range in Hm. simpl. lia.
Qed.

(** C3 (as amended): when the locator returns, the primary zip component
    is a five-digit number that begins with 9; the header line is never
    the address line, and it comes after the address line exactly when no
    line before the address line starts with TYPE (the order of the two
    lines is not checked). *)
Theorem header_address_invariant (file : string) (ha : HeaderAddress) :
  get_zip_header_line_col_names file = Returned ha →
  (90000 ≤ (zip_5_4 ha).1 ≤ 99999)%Z ∧
  ∃ a, address_line_num (readlines file) = Some a ∧
       header_line_num ha ≠ a ∧
       (a < header_line_num ha ↔
        ∀ j line, readlines file !! j = Some line → j < a →
                  startswith line "TYPE" = false).
Proof.
  unfold get_zip_header_line_col_names. intros Hret.
  split; [by eapply returned_zip_range|]. revert Hret.
  intros (a & al & g1 & g2 & gs & h & hl & Ha & Hz & Hh & ->)%locate_in_lines_Returned.
  exists a. unfold address_line_num. rewrite Ha. split; [done|]. simpl.
  apply first_line_startswith_Some in Ha as (Hal & HA & _).
  apply first_line_startswith_Some in Hh as (Hhl & HT & Hmin).
  assert (h ≠ a) as Hne.
  { intros ->. rewrite Hal in Hhl. injection Hhl as ->.
    eapply address_is_not_header; eauto. }
  split; [done|]. split.
  - intros Hlt j l Hj Hja. apply (Hmin j l Hj). lia.
  - intros Hno. destruct (decide (a < h)) as [|Hge]; [done|].
    assert (h < a) as Hlt by lia.
    rewrite (Hno h hl Hhl Hlt) in HT. done.
Qed.

(** C4: on a document whose address line embeds a zip code and that has
    a header line, the locator returns; the primary zip component is a
    five-digit number that begins with 9 and there is one column name
    more than there are commas in the header line. *)
Theorem locator_returns_on_valid_document
    (file : string) (a h : nat) (address_line header_line : string) :
  first_line_with "Address" (readlines file) a address_line →
  embeds_zip address_line →
  first_line_with "TYPE" (readlines file) h header_line →
  ∃ ha, get_zip_header_line_col_names file = Returned ha ∧
        (90000 ≤ (zip_5_4 ha).1 ≤ 99999)%Z ∧
        ((zip_5_4 ha).1 / 10000 = 9)%Z ∧
        header_line_num ha = h ∧
        length (col_names ha) = count "," header_line + 1.
Proof.
  intros Ha%first_line_startswith_Some Hz%findall_zip_embeds
    Hh%first_line_startswith_Some.
  destruct (findall_zip address_line) as [|[g1 g2] gs] eqn:Hf; [done|].
  assert (get_zip_header_line_col_names file
          = Returned {| zip_5_4 := (int g1, int g2);
                        header_line_num := h;
                        col_names := split "," header_line |}) as Hret.
  { unfold get_zip_header_line_col_names, locate_in_lines. by rewrite Ha, Hf, Hh. }
  pose proof (returned_zip_range _ _ Hret) as Hr. simpl in Hr.
  eexists. split; [exact Hret|]. simpl.
  split; [done|]. split; [|split; [done|apply length_split]].
  symmetry. apply Z.div_unique with (r := (int g1 - 90000)%Z); lia.
Qed.

(** C5: a document without a line that starts with Address, or whose
    address line embeds no zip code, or without a line that starts with
    TYPE, makes the locator stop with one of its three messages; no
    header address is returned. *)
Theorem malformed_document_stops (file : string) :
  Forall (λ line, startswith line "Address" = false) (readlines file)
  ∨ (∃ a address_line,
        first_line_with "Address" (readlines file) a address_line ∧
        ¬ embeds_zip address_line)
  ∨ Forall (λ line, startswith line "TYPE" = false) (readlines file) →
  (∃ msg, get_zip_header_line_col_names file = Raised (StopException msg) ∧
          msg ∈ [no_address_msg; no_zip_msg; no_header_msg]) ∧
  ∀ ha, get_zip_header_line_col_names file ≠ Returned ha.
Proof.
  intros H.
  assert (∃ msg, get_zip_header_line_col_names file = Raised (StopException msg) ∧
                 msg ∈ [no_address_msg; no_zip_msg; no_header_msg]) as (msg & E & Hmsg).
  { unfold get_zip_header_line_col_names, locate_in_lines, Stopped.
    destruct H as [HA|[(a & al & Ha%first_line_startswith_Some & Hz)|HT]].
    - apply first_line_startswith_None in HA as ->.
      exists no_address_msg. split; [done|]. rewrite !elem_of_cons; auto.
    - rewrite Ha.
      destruct (findall_zip al) as [|[g1 g2] gs] eqn:Hf.
      + exists no_zip_msg. split; [done|]. rewrite !elem_of_cons; auto.
      + exfalso. apply Hz, findall_zip_embeds. by rewrite Hf.
    - apply first_line_startswith_None in HT as HT'.
      destruct (first_line_startswith "Address" (readlines file)) as [[a al]|].
      + destruct (findall_zip al) as [|[g1 g2] gs].
        * exists no_zip_msg. split; [done|]. rewrite !elem_of_cons; auto.
        * rewrite HT'. exists no_header_msg. split; [done|]. rewrite !elem_of_cons; auto.
      + exists no_address_msg. split; [done|]. rewrite !elem_of_cons; auto. }
  split; [eauto|]. intros ha. by rewrite E.
Qed.

(** C9: the search is not anchored.  When the address line holds, behind
    text without the digit 9, a run of more than nine digits that begins
    with 9, the locator returns and the zip is the leftmost nine digits of
    the run, split five and four. *)
Theorem long_digit_run_accepted
    (file : string) (a h : nat) (pre run post header_line : string) :
  first_line_with "Address" (readlines file) a ("Address" +:+ pre +:+ run +:+ post) →
  count "9" pre = 0 →
  all_digits run = true →
  startswith run "9" = true →
  9 < String.length run →
  first_line_with "TYPE" (readlines file) h header_line →
  ∃ ha, get_zip_header_line_col_names file = Returned ha ∧
        zip_5_4 ha = (int (substring 0 5 run), int (substring 5 4 run)).
Proof.
  intros Ha%first_line_startswith_Some Hpre Hd H9 Hlen Hh%first_line_startswith_Some.
  unfold get_zip_header_line_col_names, locate_in_lines. rewrite Ha.
  rewrite <- (app_assoc_str "Address" pre).
  rewrite findall_zip_skip_no_nine; [|by rewrite count_app, Hpre].
  destruct run as [|c1 [|c2 [|c3 [|c4 [|c5 [|c6 [|c7 [|c8 [|c9 rest]]]]]]]]];
    simpl in Hlen; try lia.
  apply startswith_9 in H9 as [d E]. injection E as -> _.
  simpl in Hd. repeat (apply andb_true_iff in Hd as [? Hd]).
  set (g1 := String "9" (String c2 (String c3 (String c4 (String c5 EmptyString))))).
  set (g2 := String c6 (String c7 (String c8 (String c9 EmptyString)))).
  destruct (findall_zip_head (g1 +:+ g2 +:+ rest +:+ post) (g1, g2)) as [gs Hgs].
  { apply match_zip_here_Some. exists (rest +:+ post).
    split_and!; try done; subst g1 g2; simpl;
      by repeat match goal with Hc : is_digit _ = true |- _ => rewrite Hc; clear Hc end. }
  change (String "9" _ +:+ post) with (g1 +:+ g2 +:+ rest +:+ post).
  rewrite Hgs, Hh. eexists. split; [done|]. simpl. by destruct rest.
Qed.

Lemma ends_with_LF_neq name t :
  count LF t = 0 → name +:+ String LF EmptyString ≠ t.
Proof.
  intros Ht E. rewrite <- E, count_app in Ht. simpl in Ht. lia.
Qed.

(** C10: the column names are the pieces of the header line as it was
    read, terminator included: the list is the comma-split of the line at
    the header index, it is what the table receives as names, and when
    that line ends in a newline the last name is the last piece of the
    line's text followed by the newline; it stays the last label of the
    processed table. *)
Theorem col_names_keep_line_terminator (file : string) (ha : HeaderAddress) :
  get_zip_header_line_col_names file = Returned ha →
  ∃ header_line,
    readlines file !! header_line_num ha = Some header_line ∧
    col_names ha = split "," header_line ∧
    read_csv_columns (col_names ha) = col_names ha ∧
    ∀ body, header_line = body +:+ String LF EmptyString →
      ∃ names name,
        split "," body = names ++ [name] ∧
        col_names ha = names ++ [name +:+ String LF EmptyString] ∧
        ∀ cols, read_process_csv_columns ha = Returned cols →
                last cols = Some (name +:+ String LF EmptyString).
Proof.
  unfold get_zip_header_line_col_names.
  intros (a & al & g1 & g2 & gs & h & hl & Ha & Hz & Hh & ->)%locate_in_lines_Returned.
  apply first_line_startswith_Some in Hh as (Hhl & _ & _).
  exists hl. simpl. split_and!; try done.
  intros body ->.
  destruct (split_snoc "," LF body) as (names & name & Hb & Hbl); [done|].
  exists names, name. split_and!; try done.
  intros cols. unfold read_process_csv_columns, read_csv_columns, drop_column. simpl.
  rewrite Hbl. case_decide; [|done]. intros [= <-].
  unfold rename_column.
  rewrite filter_app, filter_cons_True, filter_nil by (by apply ends_with_LF_neq).
  rewrite fmap_app. simpl. rewrite last_snoc.
  case_decide as E; [|done]. by apply ends_with_LF_neq in E.
Qed.

Lemma header_address_invariant_witness :
  get_zip_header_line_col_names sample_file = Returned sample_header_address ∧
  ((90000 ≤ (zip_5_4 sample_header_address).1 ≤ 99999)%Z ∧
   ∃ a, address_line_num (readlines sample_file) = Some a ∧
        header_line_num sample_header_address ≠ a ∧
        (a < header_line_num sample_header_address ↔
         ∀ j line, readlines sample_file !! j = Some line → j < a →
                   startswith line "TYPE" = false)).
Proof.
  split; [reflexivity|].
  apply (header_address_invariant sample_file sample_header_address). reflexivity.
Defined.

(** C3, as stated, fails: the locator returns on a document whose header
    line (index 0) precedes its address line (index 1). *)
Lemma header_before_address_counterexample :
  ∃ ha, get_zip_header_line_col_names header_first_file = Returned ha ∧
        address_line_num (readlines header_first_file) = Some 1 ∧
        header_line_num ha = 0 ∧
        ¬ (1 < header_line_num ha).
Proof.
  eexists. split; [reflexivity|]. split; [reflexivity|]. split; [reflexivity|].
  simpl. lia.
Qed.

Lemma locator_returns_on_valid_document_witness :
  ∃ ha, get_zip_header_line_col_names sample_file = Returned ha ∧
        (90000 ≤ (zip_5_4 ha).1 ≤ 99999)%Z ∧
        ((zip_5_4 ha).1 / 10000 = 9)%Z ∧
        header_line_num ha = 2 ∧
        length (col_names ha)
        = count "," ("TYPE,DATE,START TIME,END TIME,USAGE (kWh),COST,NOTES"
                     +:+ String LF EmptyString) + 1.
Proof.
  apply (locator_returns_on_valid_document sample_file 1 2
           ("Address,1 MAIN ST SAN FRANCISCO CA 941101234" +:+ String LF EmptyString)).
  - apply first_line_startswith_Some. reflexivity.
  - exists "Address,1 MAIN ST SAN FRANCISCO CA ", "941101234", (String LF EmptyString).
    split; [reflexivity|]. split; [reflexivity|]. split; reflexivity.
  - apply first_line_startswith_Some. reflexivity.
Defined.

Lemma malformed_document_stops_witness :
  (∃ msg, get_zip_header_line_col_names "Name,DOE JANE" = Raised (StopException msg) ∧
          msg ∈ [no_address_msg; no_zip_msg; no_header_msg]) ∧
  ∀ ha, get_zip_header_line_col_names "Name,DOE JANE" ≠ Returned ha.
Proof.
  apply (malformed_document_stops "Name,DOE JANE").
  left. vm_compute. repeat constructor.
Defined.

Lemma long_digit_run_accepted_witness :
  ∃ ha, get_zip_header_line_col_names long_run_file = Returned ha ∧
        zip_5_4 ha = (int (substring 0 5 "9411012345"), int (substring 5 4 "9411012345")).
Proof.
  apply (long_digit_run_accepted long_run_file 0 1
           ",1 MAIN ST SAN FRANCISCO CA " "9411012345" (String LF EmptyString)
           ("TYPE,DATE" +:+ String LF EmptyString)).
  - apply first_line_startswith_Some. reflexivity.
  - reflexivity.
  - reflexivity.
  - reflexivity.
  - simpl. lia.
  - apply first_line_startswith_Some. reflexivity.
Defined.

Lemma col_names_keep_line_terminator_witness :
  get_zip_header_line_col_names sample_file = Returned sample_header_address ∧
  ∃ header_line,
    readlines sample_file !! header_line_num sample_header_address = Some header_line ∧
    col_names sample_header_address = split "," header_line ∧
    read_csv_columns (col_names sample_header_address) = col_names sample_header_address ∧
    ∀ body, header_line = body +:+ String LF EmptyString →
      ∃ names name,
        split "," body = names ++ [name] ∧
        col_names sample_header_address = names ++ [name +:+ String LF EmptyString] ∧
        ∀ cols, read_process_csv_columns sample_header_address = Returned cols →
                last cols = Some (name +:+ String LF EmptyString).
Proof.
  split; [reflexivity|].
  apply (col_names_keep_line_terminator sample_file sample_header_address). reflexivity.
Defined.

(** ** Formatting lemmas *)

Lemma substring_app_skip a k m b :
  substring (String.length a + k) m (a +:+ b) = substring k m b.
Proof. induction a as [|c a IH]; [done|]. rewrite app_cons. simpl. exact IH. Qed.

Lemma endswith_app a b suf :
  String.length suf ≤ String.length b →
  endswith (a +:+ b) suf = endswith b suf.
Proof.
  intros Hlen. unfold endswith. rewrite length_app_str.
  destruct (Nat.ltb_spec (String.length a + String.length b) (String.length suf)); [lia|].
  destruct (Nat.ltb_spec (String.length b) (String.length suf)); [lia|].
  replace (String.length a + String.length b - String.length suf)
    with (String.length a + (String.length b - String.length suf)) by lia.
  by rewrite substring_app_skip.
Qed.

Lemma length_zeros k : String.length (zeros k) = k.
Proof. induction k; simpl; auto. Qed.

Lemma length_zero_padded_ge w n : w ≤ String.length (zero_padded w n).
Proof. unfold zero_padded. rewrite length_app_str, length_zeros. lia. Qed.

Lemma date_str_split d :
  date_str d
  = (zero_padded 4 (year d) +:+ "-" +:+ zero_padded 2 (month d) +:+ "-")
    +:+ zero_padded 2 (day d).
Proof. unfold date_str. by rewrite !app_assoc_str. Qed.

(** On a date, [str(col).endswith("01")] tests the day of the month. *)
Lemma endswith_01_day d :
  date_ok d → endswith (date_str d) "01" = true ↔ day d = 1.
Proof.
  intros (_ & _ & Hd1 & Hd31).
  rewrite date_str_split, endswith_app by apply length_zero_padded_ge.
  destruct d as [y m dd]. simpl in *. clear y m.
  do 32 (destruct dd as [|dd]; [vm_compute; split; (done || lia)|]).
  lia.
Qed.

Lemma length_decimal_acc fuel n acc k :
  n < 10 ^ k → 1 ≤ k →
  String.length (decimal_acc fuel n acc) ≤ k + String.length acc.
Proof.
  revert n acc k. induction fuel as [|fuel IH]; intros n acc k Hn Hk;
    cbn [decimal_acc]; [lia|].
  destruct (Nat.eqb_spec (n / 10) 0) as [|Hq]; cbn [String.length]; [lia|].
  destruct k as [|[|k]]; [lia| |].
  - exfalso. apply Hq. apply Nat.div_small. simpl in Hn. lia.
  - etrans; [apply (IH _ _ (S k))|cbn [String.length]; lia]; [|lia].
    apply Nat.Div0.div_lt_upper_bound. by rewrite <- Nat.pow_succ_r'.
Qed.

Lemma length_zero_padded w n :
  1 ≤ w → n < 10 ^ w → String.length (zero_padded w n) = w.
Proof.
  intros Hw Hn. unfold zero_padded. rewrite length_app_str, length_zeros.
  pose proof (length_decimal_acc (S n) n EmptyString w Hn Hw) as Hle.
  unfold decimal. cbn [String.length] in Hle. lia.
Qed.

(** The label of a date: three letters of the month, a space, four digits. *)
Lemma strftime_b_Y_shape d :
  date_ok d →
  ∃ mon, month_order !! (month d - 1) = Some mon ∧ String.length mon = 3 ∧
         strftime_b_Y d = mon +:+ " " +:+ zero_padded 4 (year d) ∧
         String.length (zero_padded 4 (year d)) = 4.
Proof.
  intros ((_ & Hy) & (Hm1 & Hm12) & _). unfold strftime_b_Y.
  assert (String.length (zero_padded 4 (year d)) = 4) as Hlen.
  { apply length_zero_padded; [lia|exact Hy]. }
  destruct d as [y m dd]. simpl in *.
  do 13 (destruct m as [|m]; [try lia; eexists; split_and!; done|]). lia.
Qed.

(** ** The ticks *)

Lemma get_loc_lookup {C} `{EqDecision C} (labels : list C) i label :
  NoDup labels → labels !! i = Some label → get_loc labels label = Some i.
Proof.
  intros Hnd Hi. unfold get_loc.
  assert (list_find (λ c, c = label) labels = Some (i, label)) as ->; [|done].
  apply list_find_Some. split_and!; [done..|].
  intros j y Hj Hlt ->. pose proof (NoDup_lookup _ _ _ _ Hnd Hi Hj). lia.
Qed.

Lemma first_of_month_from_elem i cols j d :
  (j, d) ∈ first_of_month_from i cols ↔
  i ≤ j ∧ cols !! (j - i) = Some d ∧ day d = 1.
Proof.
  revert i. induction cols as [|c cols IH]; intros i; simpl.
  - rewrite elem_of_nil. split; [done|]. by intros (_ & ? & _).
  - case_decide as Hc.
    + rewrite elem_of_cons, IH. split.
      * intros [[= -> ->]|(Hle & Hl & Hd)].
        -- rewrite Nat.sub_diag. done.
        -- split_and!; [lia| |done].
           replace (j - i) with (S (j - S i)) by lia. done.
      * intros (Hle & Hl & Hd).
        destruct (decide (j = i)) as [->|Hne].
        -- rewrite Nat.sub_diag in Hl. simpl in Hl. left. congruence.
        -- right. split_and!; [lia| |done].
           replace (j - i) with (S (j - S i)) in Hl by lia. done.
    + rewrite IH. split.
      * intros (Hle & Hl & Hd). split_and!; [lia| |done].
        replace (j - i) with (S (j - S i)) by lia. done.
      * intros (Hle & Hl & Hd).
        destruct (decide (j = i)) as [->|Hne].
        -- rewrite Nat.sub_diag in Hl. simpl in Hl. congruence.
        -- split_and!; [lia| |done].
           replace (j - i) with (S (j - S i)) in Hl by lia. done.
Qed.

Lemma filter_first_of_month i cols :
  Forall date_ok cols →
  filter (λ col, endswith (date_str col) "01" = true) cols
  = snd <$> first_of_month_from i cols.
Proof.
  revert i. induction cols as [|d cols IH]; intros i Hok; [done|].
  apply Forall_cons in Hok as [Hd Hok]. simpl.
  rewrite filter_cons. pose proof (endswith_01_day d Hd) as Hiff.
  repeat case_decide; simpl; rewrite ?(IH (S i)) by done; tauto.
Qed.

Lemma mapM_get_loc_first_of_month pre cols :
  NoDup (pre ++ cols) →
  mapM (get_loc (pre ++ cols)) (snd <$> first_of_month_from (length pre) cols)
  = Some (fst <$> first_of_month_from (length pre) cols).
Proof.
  revert pre. induction cols as [|d cols IH]; intros pre Hnd; [done|].
  specialize (IH (pre ++ [d])).
  rewrite <- app_assoc, length_app, Nat.add_1_r in IH. simpl in IH.
  specialize (IH Hnd). simpl. case_decide; [|done].
  rewrite !fmap_cons. cbn [mapM fst snd].
  rewrite (get_loc_lookup _ (length pre) d Hnd); [cbn [mbind option_bind]; by rewrite IH|].
  by rewrite lookup_app_r, Nat.sub_diag.
Qed.

(** C2 (as amended): on a frame whose column labels are distinct dates,
    the x ticks are the positions of the columns whose date is the first
    of its month, in order, each labelled with the month abbreviation and
    the four-digit year of that column; the y ticks are always 0, 4, ...,
    24 with the labels 00:00 ... 24:00, whatever the number of rows. *)
Theorem heatmap_ticks_spec {R V} (df : DataFrame R date V) :
  NoDup (columns df) → Forall date_ok (columns df) →
  ∃ t, get_heatmap_ticks df = Some t ∧
       (∀ i, i ∈ x_ticks t ↔ ∃ d, columns df !! i = Some d ∧ day d = 1) ∧
       x_ticks t = fst <$> first_of_month_from 0 (columns df) ∧
       x_tick_labels t = strftime_b_Y ∘ snd <$> first_of_month_from 0 (columns df) ∧
       (∀ k i, x_ticks t !! k = Some i →
          ∃ d mon, columns df !! i = Some d ∧
                   month_order !! (month d - 1) = Some mon ∧
                   String.length (zero_padded 4 (year d)) = 4 ∧
                   x_tick_labels t !! k = Some (mon +:+ " " +:+ zero_padded 4 (year d))) ∧
       y_ticks t = [0; 4; 8; 12; 16; 20; 24] ∧
       y_tick_labels t = ["00:00"; "04:00"; "08:00"; "12:00"; "16:00"; "20:00"; "24:00"].
Proof.
  intros Hnd Hok. unfold get_heatmap_ticks.
  rewrite (filter_first_of_month 0) by done.
  pose proof (mapM_get_loc_first_of_month [] (columns df) Hnd) as Hm.
  cbn [app length] in Hm. rewrite Hm. cbn [mbind option_bind].
  eexists. split; [done|]. simpl. split_and!; try done.
  - intros i. rewrite list_elem_of_fmap. split.
    + intros ([j d] & -> & (_ & Hl & Hd)%first_of_month_from_elem).
      simpl. rewrite Nat.sub_0_r in Hl. eauto.
    + intros (d & Hl & Hd). exists (i, d). split; [done|].
      apply first_of_month_from_elem. rewrite Nat.sub_0_r. split_and!; [lia|done..].
  - by rewrite list_fmap_compose.
  - intros k i ([j d] & [= <-] & Hk)%list_lookup_fmap_Some.
    pose proof (list_elem_of_lookup_2 _ _ _ Hk) as (_ & Hl & _)%first_of_month_from_elem.
    rewrite Nat.sub_0_r in Hl.
    assert (date_ok d) as Hd.
    { eapply Forall_lookup_1; [exact Hok|exact Hl]. }
    destruct (strftime_b_Y_shape d Hd) as (mon & Hmon & _ & Hlabel & Hlen).
    exists d, mon. split_and!; try done.
    rewrite !list_lookup_fmap, Hk. simpl. by rewrite Hlabel.
Qed.

(** ** The order of dates and of times *)

#[global] Instance date_le_po : PartialOrder date_le.
Proof.
  unfold date_le, date_leb. split; [split|].
  - intros [y m d]. simpl. rewrite !Nat.compare_refl. by apply Nat.leb_le.
  - intros [y1 m1 d1] [y2 m2 d2] [y3 m3 d3]. simpl.
    destruct (Nat.compare_spec y1 y2), (Nat.compare_spec y2 y3),
      (Nat.compare_spec y1 y3); try done; try lia;
    destruct (Nat.compare_spec m1 m2), (Nat.compare_spec m2 m3),
      (Nat.compare_spec m1 m3); try done; try lia.
    rewrite !Nat.leb_le. lia.
  - intros [y1 m1 d1] [y2 m2 d2]. simpl.
    destruct (Nat.compare_spec y1 y2), (Nat.compare_spec y2 y1); try done; try lia;
    destruct (Nat.compare_spec m1 m2), (Nat.compare_spec m2 m1); try done; try lia.
    rewrite !Nat.leb_le. intros. f_equal; lia.
Qed.

#[global] Instance date_le_total : Total date_le.
Proof.
  unfold date_le, date_leb. intros [y1 m1 d1] [y2 m2 d2]. simpl.
  destruct (Nat.compare_spec y1 y2), (Nat.compare_spec y2 y1); auto; try lia;
  destruct (Nat.compare_spec m1 m2), (Nat.compare_spec m2 m1); auto; try lia.
  rewrite !Nat.leb_le. lia.
Qed.

#[global] Instance time_le_po : PartialOrder time_le.
Proof.
  unfold time_le, time_leb. split; [split|].
  - intros [h m s u]. simpl. rewrite !Nat.compare_refl. by apply Nat.leb_le.
  - intros [h1 m1 s1 u1] [h2 m2 s2 u2] [h3 m3 s3 u3]. simpl.
    destruct (Nat.compare_spec h1 h2), (Nat.compare_spec h2 h3),
      (Nat.compare_spec h1 h3); try done; try lia;
    destruct (Nat.compare_spec m1 m2), (Nat.compare_spec m2 m3),
      (Nat.compare_spec m1 m3); try done; try lia;
    destruct (Nat.compare_spec s1 s2), (Nat.compare_spec s2 s3),
      (Nat.compare_spec s1 s3); try done; try lia.
    rewrite !Nat.leb_le. lia.
  - intros [h1 m1 s1 u1] [h2 m2 s2 u2]. simpl.
    destruct (Nat.compare_spec h1 h2), (Nat.compare_spec h2 h1); try done; try lia;
    destruct (Nat.compare_spec m1 m2), (Nat.compare_spec m2 m1); try done; try lia;
    destruct (Nat.compare_spec s1 s2), (Nat.compare_spec s2 s1); try done; try lia.
    rewrite !Nat.leb_le. intros. f_equal; lia.
Qed.

#[global] Instance time_le_total : Total time_le.
Proof.
  unfold time_le, time_leb. intros [h1 m1 s1 u1] [h2 m2 s2 u2]. simpl.
  destruct (Nat.compare_spec h1 h2), (Nat.compare_spec h2 h1); auto; try lia;
  destruct (Nat.compare_spec m1 m2), (Nat.compare_spec m2 m1); auto; try lia;
  destruct (Nat.compare_spec s1 s2), (Nat.compare_spec s2 s1); auto; try lia.
  rewrite !Nat.leb_le. lia.
Qed.

(** ** The reshaper *)

Section ReshaperFacts.
Context {Row K R C V : Type}.
Context `{EqDecision K, EqDecision R, EqDecision C}.

Lemma length_remove_dups_le {A} `{EqDecision A} (l : list A) :
  length (remove_dups l) ≤ length l.
Proof. induction l as [|x l IH]; simpl; [done|]. case_decide; simpl; lia. Qed.

Lemma length_remove_dups_NoDup {A} `{EqDecision A} (l : list A) :
  length (remove_dups l) = length l ↔ NoDup l.
Proof.
  induction l as [|x l IH]; simpl.
  - split; [constructor|done].
  - pose proof (length_remove_dups_le l). rewrite NoDup_cons.
    case_decide; simpl; [split; [lia|tauto]|].
    rewrite <- IH. split; [intros [=]; done|intros [_ ->]; done].
Qed.

(** *** De-duplication *)

Lemma drop_duplicated_from_cons (subset : Row → K) seen row df :
  boolean_index (row :: df) (negb <$> duplicated_from seen (subset <$> row :: df))
  = if decide (subset row ∈ seen)
    then boolean_index df (negb <$> duplicated_from (subset row :: seen) (subset <$> df))
    else row :: boolean_index df
                  (negb <$> duplicated_from (subset row :: seen) (subset <$> df)).
Proof.
  rewrite fmap_cons. cbn [duplicated_from]. rewrite fmap_cons. cbn [boolean_index].
  by case_bool_decide; case_decide.
Qed.

Lemma drop_duplicated_from_spec (subset : Row → K) seen df :
  let kept := boolean_index df (negb <$> duplicated_from seen (subset <$> df)) in
  sublist kept df ∧
  NoDup (subset <$> kept) ∧
  (∀ row, row ∈ kept → subset row ∉ seen) ∧
  (∀ k, k ∉ seen →
        snd <$> list_find (λ row, subset row = k) kept
        = snd <$> list_find (λ row, subset row = k) df).
Proof.
  revert seen. induction df as [|row df IH]; intros seen.
  - simpl. split_and!; [done|constructor|by intros ? ?%elem_of_nil|done].
  - cbv zeta. rewrite drop_duplicated_from_cons.
    destruct (IH (subset row :: seen)) as (Hsub & Hnd & Hseen & Hfind).
    cbv zeta in Hsub, Hnd, Hseen, Hfind.
    set (kept := boolean_index df
                   (negb <$> duplicated_from (subset row :: seen) (subset <$> df))) in *.
    case_decide as Hin.
    + split_and!.
      * by apply sublist_cons.
      * done.
      * intros r Hr Hs. apply (Hseen r Hr). by right.
      * intros k Hk. rewrite Hfind.
        -- cbn [list_find]. case_decide as E; [by subst|].
           by rewrite <- option_fmap_compose.
        -- intros [->|?]%elem_of_cons; done.
    + split_and!.
      * by apply sublist_skip.
      * rewrite fmap_cons. apply NoDup_cons. split; [|done].
        intros (r & E & Hr)%list_elem_of_fmap. apply (Hseen r Hr). rewrite <- E. by left.
      * intros r [->|Hr]%elem_of_cons; [done|].
        intros Hs. apply (Hseen r Hr). by right.
      * intros k Hk. cbn [list_find]. case_decide as E; [done|].
        rewrite <- !option_fmap_compose.
        change (snd ∘ prod_map S id) with (@snd nat Row).
        apply Hfind. intros [->|?]%elem_of_cons; done.
Qed.

(** *** The pivot *)

Context (leR : relation R) `{!RelDecision leR}.
Context (leC : relation C) `{!RelDecision leC}.
Context (index_of : Row → R) (columns_of : Row → C) (values_of : Row → V).

Let cell_of (row : Row) : R * C := (index_of row, columns_of row).

Lemma pivot_Returned df m :
  pivot leR leC index_of columns_of values_of df = Returned m ↔
  NoDup (cell_of <$> df) ∧
  m = {| index := axis_labels leR (index_of <$> df);
         columns := axis_labels leC (columns_of <$> df);
         values :=
           (λ r, (λ c, values_of ∘ snd <$> list_find (λ row, cell_of row = (r, c)) df)
                 <$> axis_labels leC (columns_of <$> df))
           <$> axis_labels leR (index_of <$> df) |}.
Proof.
  unfold pivot. fold cell_of.
  pose proof (length_remove_dups_le (cell_of <$> df)) as Hle.
  pose proof (length_remove_dups_NoDup (cell_of <$> df)) as Hiff.
  rewrite length_fmap in Hle, Hiff.
  case_decide as Hlt.
  - split; [done|]. intros [Hnd _]. apply Hiff in Hnd. lia.
  - split.
    + intros [= <-]. split; [|done]. apply Hiff. lia.
    + intros [_ ->]. done.
Qed.

Lemma pivot_Raised df e :
  pivot leR leC index_of columns_of values_of df = Raised e ↔
  ¬ NoDup (cell_of <$> df) ∧ e = ValueError duplicate_entries_msg.
Proof.
  unfold pivot. fold cell_of.
  pose proof (length_remove_dups_le (cell_of <$> df)) as Hle.
  pose proof (length_remove_dups_NoDup (cell_of <$> df)) as Hiff.
  rewrite length_fmap in Hle, Hiff.
  case_decide as Hlt.
  - split.
    + intros [= <-]. split; [|done]. intros Hnd%Hiff. lia.
    + intros [_ ->]. done.
  - split; [done|]. intros [Hnd _]. exfalso. apply Hnd, Hiff. lia.
Qed.
End ReshaperFacts.

Section PivotAxes.
Context {Row R C V : Type} `{EqDecision R, EqDecision C}.
Context (leR : relation R) `{!RelDecision leR, !PartialOrder leR, !Total leR}.
Context (leC : relation C) `{!RelDecision leC, !PartialOrder leC, !Total leC}.
Context (index_of : Row → R) (columns_of : Row → C) (values_of : Row → V).

Lemma axis_labels_spec {A} `{EqDecision A} (le : relation A)
    `{!RelDecision le, !PartialOrder le, !Total le} (keys : list A) :
  StronglySorted le (axis_labels le keys) ∧
  NoDup (axis_labels le keys) ∧
  ∀ k, k ∈ axis_labels le keys ↔ k ∈ keys.
Proof.
  unfold axis_labels. split_and!.
  - apply StronglySorted_merge_sort; apply _.
  - rewrite merge_sort_Permutation. apply NoDup_remove_dups.
  - intros k. by rewrite merge_sort_Permutation, elem_of_remove_dups.
Qed.

(** A sorted list without repetition is determined by its elements. *)
Lemma axis_labels_unique {A} `{EqDecision A} (le : relation A)
    `{!RelDecision le, !PartialOrder le, !Total le} (keys labels : list A) :
  StronglySorted le labels → NoDup labels →
  axis_labels le keys = labels ↔ ∀ k, k ∈ labels ↔ k ∈ keys.
Proof.
  intros Hs Hnd. destruct (axis_labels_spec le keys) as (Hs' & Hnd' & Hel).
  split.
  - intros <-. done.
  - intros Hsame. apply (StronglySorted_unique le); [done..|].
    apply NoDup_Permutation; [done..|]. intros k. by rewrite Hel, Hsame.
Qed.

(** C1 (as amended): in the frame a pivot returns, the row labels are
    the distinct row keys of the source in increasing order, so they are
    a given sorted sequence (such as the 24 hours) exactly when the keys
    that occur are the members of that sequence; the column labels are
    the distinct column keys in increasing order; a cell holds the value
    of the source row that maps to it and is absent when there is none. *)
Theorem pivot_axes_and_cells (df : list Row) (m : DataFrame R C V) :
  pivot leR leC index_of columns_of values_of df = Returned m →
  (StronglySorted leR (index m) ∧ NoDup (index m) ∧
   ∀ r, r ∈ index m ↔ ∃ row, row ∈ df ∧ index_of row = r) ∧
  (∀ hours, StronglySorted leR hours → NoDup hours →
     index m = hours ↔ ∀ r, r ∈ hours ↔ ∃ row, row ∈ df ∧ index_of row = r) ∧
  (StronglySorted leC (columns m) ∧ NoDup (columns m) ∧
   ∀ c, c ∈ columns m ↔ ∃ row, row ∈ df ∧ columns_of row = c) ∧
  (∀ i j r c, index m !! i = Some r → columns m !! j = Some c →
     (∀ v, iat m i j = Some v ↔
           ∃ row, row ∈ df ∧ index_of row = r ∧ columns_of row = c ∧
                  values_of row = v) ∧
     (iat m i j = None ↔
      ∀ row, row ∈ df → ¬ (index_of row = r ∧ columns_of row = c))).
Proof.
  intros [Hnd ->]%pivot_Returned. cbn [index columns].
  destruct (axis_labels_spec leR (index_of <$> df)) as (HsR & HndR & HelR).
  destruct (axis_labels_spec leC (columns_of <$> df)) as (HsC & HndC & HelC).
  assert (∀ {A} (f : Row → A) a, a ∈ f <$> df ↔ ∃ row, row ∈ df ∧ f row = a) as Hfmap.
  { intros A f a. rewrite list_elem_of_fmap. split.
    - intros (row & -> & ?). eauto.
    - intros (row & ? & <-). eauto. }
  split_and!; try done.
  - intros r. by rewrite HelR, Hfmap.
  - intros hours Hs Hn. rewrite (axis_labels_unique leR _ hours Hs Hn).
    by setoid_rewrite Hfmap.
  - intros c. by rewrite HelC, Hfmap.
  - intros i j r c Hi Hj.
    assert (iat {| index := axis_labels leR (index_of <$> df);
                   columns := axis_labels leC (columns_of <$> df);
                   values :=
                     (λ r, (λ c, values_of ∘ snd <$>
                              list_find (λ row, (index_of row, columns_of row) = (r, c)) df)
                           <$> axis_labels leC (columns_of <$> df))
                     <$> axis_labels leR (index_of <$> df) |} i j
            = values_of ∘ snd <$>
                list_find (λ row, (index_of row, columns_of row) = (r, c)) df) as ->.
    { unfold iat. cbn [values]. rewrite list_lookup_fmap, Hi. simpl.
      by rewrite list_lookup_fmap, Hj. }
    split.
    + intros v. rewrite fmap_Some. split.
      * intros ([a row] & (Ha & [= <- <-] & _)%list_find_Some & ->).
        exists row. split_and!; try done. by eapply list_elem_of_lookup_2.
      * intros (row & (a & Ha)%list_elem_of_lookup_1 & <- & <- & <-).
        destruct (list_find (λ row', (index_of row', columns_of row')
                                     = (index_of row, columns_of row)) df)
          as [[b row']|] eqn:Hf.
        -- exists (b, row'). split; [done|].
           apply list_find_Some in Hf as (Hb & E & _).
           assert (a = b) as ->.
           { eapply (NoDup_lookup _ _ _ _ Hnd); rewrite list_lookup_fmap.
             - by rewrite Ha.
             - by rewrite Hb, <- E. }
           simpl. congruence.
        -- apply list_find_None in Hf.
           eapply Forall_lookup_1 in Hf; [|exact Ha]. done.
    + rewrite fmap_None, list_find_None, Forall_forall. split.
      * intros Hall row Hrow [<- <-]. by apply (Hall row).
      * intros Hall row Hrow [= E1 E2]. by apply (Hall row).
Qed.
End PivotAxes.

Section PivotFailure.
Context {Row R C V : Type} `{EqDecision R, EqDecision C}.
Context (leR : relation R) `{!RelDecision leR}.
Context (leC : relation C) `{!RelDecision leC}.
Context (index_of : Row → R) (columns_of : Row → C) (values_of : Row → V).

(** C6: when two different rows of the table handed to the pivot map to
    the same cell, the pivot raises the duplicate-entries error and
    returns no frame. *)
Theorem pivot_raises_on_duplicate_cells (df : list Row) (i j : nat) (ri rj : Row) :
  i ≠ j → df !! i = Some ri → df !! j = Some rj →
  index_of ri = index_of rj → columns_of ri = columns_of rj →
  pivot leR leC index_of columns_of values_of df
    = Raised (ValueError duplicate_entries_msg) ∧
  ∀ m, pivot leR leC index_of columns_of values_of df ≠ Returned m.
Proof.
  intros Hne Hi Hj Er Ec.
  assert (pivot leR leC index_of columns_of values_of df
          = Raised (ValueError duplicate_entries_msg)) as E.
  { apply pivot_Raised. split; [|done]. intros Hnd. apply Hne.
    eapply (NoDup_lookup _ _ _ _ Hnd); rewrite list_lookup_fmap.
    - by rewrite Hi.
    - rewrite Hj. simpl. by rewrite Er, Ec. }
  split; [done|]. intros m. by rewrite E.
Qed.
End PivotFailure.

(** C7: de-duplication of the weather table keeps the rows in their
    order, leaves no two rows with the same date and time, and for every
    date and time the row that is left is the first such row of the
    source; the weather pivot of the result returns a frame. *)
Theorem weather_deduplication_keeps_first (weather_hourly_df : list Weather.Observation) :
  sublist (deduplicate_weather weather_hourly_df) weather_hourly_df ∧
  NoDup ((λ row, (Weather.DATE row, Weather.TIME row))
         <$> deduplicate_weather weather_hourly_df) ∧
  (∀ d t,
     snd <$> list_find (λ row, (Weather.DATE row, Weather.TIME row) = (d, t))
               (deduplicate_weather weather_hourly_df)
     = snd <$> list_find (λ row, (Weather.DATE row, Weather.TIME row) = (d, t))
                 weather_hourly_df) ∧
  ∃ m, weather_map_df weather_hourly_df = Returned m.
Proof.
  destruct (drop_duplicated_from_spec (λ row, (Weather.DATE row, Weather.TIME row)) []
              weather_hourly_df) as (Hsub & Hnd & _ & Hfind).
  cbv zeta in Hsub, Hnd, Hfind.
  change (boolean_index _ _) with (deduplicate_weather weather_hourly_df)
    in Hsub, Hnd, Hfind.
  split_and!; try done.
  - intros d t. apply Hfind. apply not_elem_of_nil.
  - unfold weather_map_df.
    destruct (pivot time_le date_le Weather.TIME Weather.DATE Weather.TEMP_F
                (deduplicate_weather weather_hourly_df)) as [m|e] eqn:E; [eauto|].
    apply pivot_Raised in E as [Hdup _]. exfalso. apply Hdup.
    apply (NoDup_fmap_1 (λ p : time * date, (p.2, p.1))).
    by rewrite <- list_fmap_compose.
Qed.

(** ** Price per unit *)

(** C8: a row with usage 2.0 and cost text $1.00 gets the price 0.5;
    a row with usage 0.0 is processed all the same (nothing is raised) and
    its price is not a number or is infinite. *)
Theorem price_per_unit (date start : string) (r : RawUsageRow) (cost : float) :
  process_row {| raw_DATE := date; raw_START_TIME := start;
                 raw_USAGE := 2.0; raw_COST := "$1.00" |}
  = Some {| DATE := date; START_TIME := start; USAGE := 2.0;
            COST := 1.0; PRICEPERKWH := 0.5 |} ∧
  (raw_USAGE r = 0.0%float →
   float_of_str (remove_char "$" (raw_COST r)) = FloatValue cost →
   ∃ rec, process_row r = Some rec ∧
          COST rec = cost ∧
          (Prim2SF (PRICEPERKWH rec) = S754_nan ∨
           ∃ sign, Prim2SF (PRICEPERKWH rec) = S754_infinity sign)).
Proof.
  split; [reflexivity|].
  intros Hu Hc. unfold process_row. rewrite Hc, Hu.
  eexists. split; [reflexivity|]. split; [reflexivity|]. cbn [PRICEPERKWH].
  rewrite div_spec. change (Prim2SF 0) with (S754_zero false).
  destruct (Prim2SF cost) as [s|s| |s mant e]; cbn; eauto.
Qed.

(** C1, as stated, fails: a usage table with one row gives a frame with
    one row label, not the 24 hours. *)
Lemma pivot_rows_counterexample :
  ∃ m, electric_map_df [midnight_usage] = Returned m ∧
       index m = ["00:00"] ∧ index m ≠ hour_order.
Proof. eexists. split; [vm_compute; reflexivity|]. split; [reflexivity|]. done. Qed.

Lemma pivot_axes_and_cells_witness :
  ∃ m, electric_map_df full_day_usage = Returned m ∧
    index m = hour_order ∧
    (StronglySorted String.le (index m) ∧ NoDup (index m) ∧
     ∀ r, r ∈ index m ↔ ∃ row, row ∈ full_day_usage ∧ START_TIME row = r) ∧
    (∀ hours, StronglySorted String.le hours → NoDup hours →
       index m = hours ↔
       ∀ r, r ∈ hours ↔ ∃ row, row ∈ full_day_usage ∧ START_TIME row = r) ∧
    (StronglySorted String.le (columns m) ∧ NoDup (columns m) ∧
     ∀ c, c ∈ columns m ↔ ∃ row, row ∈ full_day_usage ∧ DATE row = c) ∧
    (∀ i j r c, index m !! i = Some r → columns m !! j = Some c →
       (∀ v, iat m i j = Some v ↔
             ∃ row, row ∈ full_day_usage ∧ START_TIME row = r ∧ DATE row = c ∧
                    USAGE row = v) ∧
       (iat m i j = None ↔
        ∀ row, row ∈ full_day_usage → ¬ (START_TIME row = r ∧ DATE row = c))).
Proof.
  eexists. split; [vm_compute; reflexivity|]. split; [reflexivity|].
  apply (pivot_axes_and_cells String.le String.le START_TIME DATE USAGE full_day_usage).
  vm_compute; reflexivity.
Defined.

(** C2, as stated, fails: on the weather frame of one full day, with the
    24 rows 0..23, the y ticks include 24, which is no row of the frame. *)
Lemma y_ticks_counterexample :
  ∃ m t, weather_map_df (hourly_weather january_first) = Returned m ∧
         get_heatmap_ticks m = Some t ∧
         length (index m) = 24 ∧
         y_ticks t = [0; 4; 8; 12; 16; 20; 24] ∧
         y_ticks_in_range m = [0; 4; 8; 12; 16; 20] ∧
         y_ticks t ≠ y_ticks_in_range m.
Proof.
  eexists _, _. split; [vm_compute; reflexivity|].
  split; [vm_compute; reflexivity|].
  split; [reflexivity|]. split; [reflexivity|]. split; [reflexivity|]. done.
Qed.

Lemma heatmap_ticks_spec_witness :
  ∃ t, get_heatmap_ticks three_day_frame = Some t ∧
       (∀ i, i ∈ x_ticks t ↔ ∃ d, columns three_day_frame !! i = Some d ∧ day d = 1) ∧
       x_ticks t = fst <$> first_of_month_from 0 (columns three_day_frame) ∧
       x_tick_labels t
       = strftime_b_Y ∘ snd <$> first_of_month_from 0 (columns three_day_frame) ∧
       (∀ k i, x_ticks t !! k = Some i →
          ∃ d mon, columns three_day_frame !! i = Some d ∧
                   month_order !! (month d - 1) = Some mon ∧
                   String.length (zero_padded 4 (year d)) = 4 ∧
                   x_tick_labels t !! k = Some (mon +:+ " " +:+ zero_padded 4 (year d))) ∧
       y_ticks t = [0; 4; 8; 12; 16; 20; 24] ∧
       y_tick_labels t = ["00:00"; "04:00"; "08:00"; "12:00"; "16:00"; "20:00"; "24:00"].
Proof.
  apply (heatmap_ticks_spec three_day_frame).
  - compute_done.
  - compute_done.
Defined.

Lemma pivot_raises_on_duplicate_cells_witness :
  electric_map_df repeated_hour_usage = Raised (ValueError duplicate_entries_msg) ∧
  ∀ m, electric_map_df repeated_hour_usage ≠ Returned m.
Proof.
  apply (pivot_raises_on_duplicate_cells String.le String.le START_TIME DATE USAGE
           repeated_hour_usage 0 1
           {| DATE := "2024-11-03"; START_TIME := "01:00";
              USAGE := 0.25; COST := 0.125; PRICEPERKWH := 0.5 |}
           {| DATE := "2024-11-03"; START_TIME := "01:00";
              USAGE := 0.5; COST := 0.25; PRICEPERKWH := 0.5 |}).
  - discriminate.
  - reflexivity.
  - reflexivity.
  - reflexivity.
  - reflexivity.
Defined.

Lemma price_per_unit_witness :
  ∃ rec, process_row zero_usage_row = Some rec ∧
         COST rec = 0%float ∧
         (Prim2SF (PRICEPERKWH rec) = S754_nan ∨
          ∃ sign, Prim2SF (PRICEPERKWH rec) = S754_infinity sign).
Proof.
  apply (proj2 (price_per_unit "2024-01-01" "03:00" zero_usage_row 0%float)).
  - reflexivity.
  - vm_compute. reflexivity.
Defined.

(** The repeated hour of the day the clocks go back: the first of the two
    observations at 01:00 stays, and the frame has its temperature. *)
Example repeated_hour_weather_pivot :
  deduplicate_weather repeated_hour_weather
  = [ {| Weather.DATE := clocks_back; Weather.TIME := on_the_hour 0; Weather.TEMP_F := 58 |};
      {| Weather.DATE := clocks_back; Weather.TIME := on_the_hour 1; Weather.TEMP_F := 57 |};
      {| Weather.DATE := clocks_back; Weather.TIME := on_the_hour 2; Weather.TEMP_F := 55 |} ] ∧
  weather_map_df repeated_hour_weather
  = Returned {| index := [on_the_hour 0; on_the_hour 1; on_the_hour 2];
                columns := [clocks_back];
                values := [[Some 58%float]; [Some 57%float]; [Some 55%float]] |}.
Proof. split; vm_compute; reflexivity. Qed.

(** * Further properties of the program *)

#[local] Set Warnings "-clear-no-such-hyp".

(** ** Lines and pieces *)

Lemma readlines_cons c rest :
  readlines (String c rest)
  = if Ascii.eqb c LF then String c EmptyString :: readlines rest
    else match readlines rest with
         | [] => [String c EmptyString]
         | line :: lines => String c line :: lines
         end.
Proof. reflexivity. Qed.

Lemma concat_readlines content : String.concat EmptyString (readlines content) = content.
Proof.
  induction content as [|c rest IH]; [done|].
  rewrite readlines_cons. destruct (Ascii.eqb c LF).
  - destruct (readlines rest) as [|l ls] eqn:E; simpl in *; by rewrite IH.
  - destruct (readlines rest) as [|l ls] eqn:E; simpl in *; [by rewrite <- IH|].
    destruct ls; simpl in *; by rewrite <- IH.
Qed.

(** X4: [readlines] loses nothing and splits after every newline: the
    lines put together are the content, and each line either ends with
    its only newline or is the last line, not empty and without newline. *)
Theorem readlines_partition (content : string) :
  String.concat EmptyString (readlines content) = content ∧
  ∀ i line, readlines content !! i = Some line →
    (∃ body, line = body +:+ String LF EmptyString ∧ count LF body = 0) ∨
    (S i = length (readlines content) ∧ line ≠ EmptyString ∧ count LF line = 0).
Proof.
  split; [apply concat_readlines|].
  induction content as [|c rest IH]; intros i line Hi; [done|].
  rewrite readlines_cons in Hi |- *.
  destruct (Ascii.eqb c LF) eqn:Hc.
  - apply Ascii.eqb_eq in Hc as ->. destruct i as [|i]; simpl in Hi.
    + injection Hi as <-. left. by exists EmptyString.
    + destruct (IH i line Hi) as [?|(Hlen & ? & ?)]; [by left|].
      right. simpl. by rewrite <- Hlen.
  - destruct (readlines rest) as [|l ls] eqn:E.
    + destruct i as [|i]; [|done]. injection Hi as <-.
      right. simpl. by rewrite Hc.
    + destruct i as [|i]; simpl in Hi.
      * injection Hi as <-.
        destruct (IH 0 l eq_refl) as [(body & -> & Hb)|(Hlen & ? & Hl)].
        -- left. exists (String c body). split; [done|]. simpl. by rewrite Hc.
        -- right. simpl in *. by rewrite Hc, Hl.
      * destruct (IH (S i) line Hi) as [?|(Hlen & ? & ?)]; [by left|].
        right. done.
Qed.

Lemma concat_split sep s : String.concat (String sep EmptyString) (split sep s) = s.
Proof.
  induction s as [|c s IH]; [done|]. simpl.
  pose proof (split_nonempty sep s) as Hne.
  destruct (Ascii.eqb c sep) eqn:Hc.
  - apply Ascii.eqb_eq in Hc as ->.
    destruct (split sep s) as [|p ps]; [done|]. simpl in *. by rewrite IH.
  - destruct (split sep s) as [|p ps]; [done|].
    destruct ps as [|p' ps]; simpl in *; by rewrite <- IH.
Qed.

Lemma split_no_sep sep s : Forall (λ piece, count sep piece = 0) (split sep s).
Proof.
  induction s as [|c s IH]; simpl; [by repeat constructor|].
  destruct (Ascii.eqb c sep) eqn:Hc; [by constructor|].
  destruct (split sep s) as [|p ps]; [by repeat constructor; simpl; rewrite Hc|].
  apply Forall_cons in IH as [Hp Hps]. constructor; [|done]. simpl. by rewrite Hc.
Qed.

Lemma split_head_startswith sep tok s :
  count sep tok = 0 → startswith s tok = true →
  ∃ piece pieces, split sep s = piece :: pieces ∧ startswith piece tok = true.
Proof.
  revert s. induction tok as [|a tok IH]; intros s Hc Hs.
  - pose proof (split_nonempty sep s).
    destruct (split sep s) as [|p ps]; [done|].
    exists p, ps. split; [done|]. by destruct p.
  - destruct s as [|c s]; [done|].
    apply startswith_cons_inv in Hs as [-> Hs]. simpl in Hc.
    destruct (Ascii.eqb c sep) eqn:E; [done|].
    destruct (IH s Hc Hs) as (p & ps & Hsplit & Hp).
    exists (String c p), ps. cbn [split]. rewrite E, Hsplit. split; [done|].
    by rewrite startswith_cons.
Qed.

(** X3: the column names lose nothing of the header line: joined with
    commas they give back the line at the header index, no name holds a
    comma, and the first name begins with TYPE. *)
Theorem col_names_round_trip (file : string) (ha : HeaderAddress) :
  get_zip_header_line_col_names file = Returned ha →
  ∃ header_line,
    readlines file !! header_line_num ha = Some header_line ∧
    String.concat "," (col_names ha) = header_line ∧
    Forall (λ name, count "," name = 0) (col_names ha) ∧
    ∃ first rest, col_names ha = first :: rest ∧ startswith first "TYPE" = true.
Proof.
  unfold get_zip_header_line_col_names.
  intros (a & al & g1 & g2 & gs & h & hl & _ & _ & Hh & ->)%locate_in_lines_Returned.
  apply first_line_startswith_Some in Hh as (Hhl & HT & _).
  exists hl. simpl. split; [done|]. split; [apply concat_split|].
  split; [apply split_no_sep|]. by apply split_head_startswith.
Qed.

Lemma col_names_round_trip_witness :
  ∃ header_line,
    readlines sample_file !! header_line_num sample_header_address = Some header_line ∧
    String.concat "," (col_names sample_header_address) = header_line ∧
    Forall (λ name, count "," name = 0) (col_names sample_header_address) ∧
    ∃ first rest, col_names sample_header_address = first :: rest ∧
                  startswith first "TYPE" = true.
Proof.
  apply (col_names_round_trip sample_file sample_header_address). reflexivity.
Defined.

(** ** Which way the locator ends *)

Lemma locator_messages_differ :
  no_address_msg ≠ no_zip_msg ∧ no_address_msg ≠ no_header_msg ∧ no_zip_msg ≠ no_header_msg.
Proof. by split_and!. Qed.

(** X1: the checks are made in a fixed order and the first defect decides
    the message: the address message exactly when no line begins with
    Address; the zip message exactly when the first such line embeds no
    zip code; the header message exactly when that line embeds one and no
    line begins with TYPE; a result in the one remaining case. *)
Theorem locator_outcome_cases (file : string) :
  (get_zip_header_line_col_names file = Stopped no_address_msg ↔
   Forall (λ line, startswith line "Address" = false) (readlines file)) ∧
  (get_zip_header_line_col_names file = Stopped no_zip_msg ↔
   ∃ a address_line, first_line_with "Address" (readlines file) a address_line ∧
                     ¬ embeds_zip address_line) ∧
  (get_zip_header_line_col_names file = Stopped no_header_msg ↔
   (∃ a address_line, first_line_with "Address" (readlines file) a address_line ∧
                      embeds_zip address_line) ∧
   Forall (λ line, startswith line "TYPE" = false) (readlines file)) ∧
  ((∃ ha, get_zip_header_line_col_names file = Returned ha) ↔
   (∃ a address_line, first_line_with "Address" (readlines file) a address_line ∧
                      embeds_zip address_line) ∧
   ∃ h header_line, first_line_with "TYPE" (readlines file) h header_line).
Proof.
  destruct locator_messages_differ as (D1 & D2 & D3).
  unfold get_zip_header_line_col_names, locate_in_lines, Stopped.
  setoid_rewrite <- first_line_startswith_Some.
  setoid_rewrite <- first_line_startswith_None.
  setoid_rewrite <- findall_zip_embeds.
  destruct (first_line_startswith "Address" (readlines file)) as [[a al]|];
    [destruct (findall_zip al) as [|[g1 g2] gs] eqn:Hf;
     [|destruct (first_line_startswith "TYPE" (readlines file)) as [[h hl]|]]|];
    (split_and!; split; try done; try naive_solver congruence).
Qed.

(** ** The zip code found *)

Lemma int_acc_shift acc s :
  int_acc acc s = (acc * 10 ^ Z.of_nat (String.length s) + int_acc 0 s)%Z.
Proof.
  revert acc. induction s as [|c s IH]; intros acc; cbn [int_acc String.length].
  - change (10 ^ Z.of_nat 0)%Z with 1%Z. lia.
  - rewrite (IH (10 * acc + digit_value c)%Z), (IH (10 * 0 + digit_value c)%Z).
    rewrite Nat2Z.inj_succ, Z.pow_succ_r by lia. lia.
Qed.

Lemma int_acc_app acc s t : int_acc acc (s +:+ t) = int_acc (int_acc acc s) t.
Proof.
  revert acc. induction s as [|c s IH]; intros acc; [done|].
  rewrite app_cons. cbn [int_acc]. apply IH.
Qed.

Lemma int_app s t :
  int (s +:+ t) = (int s * 10 ^ Z.of_nat (String.length t) + int t)%Z.
Proof. unfold int. by rewrite int_acc_app, int_acc_shift. Qed.

Lemma findall_zip_leftmost s g gs :
  findall_zip s = g :: gs →
  ∃ pre sfx, s = pre +:+ sfx ∧ match_zip_here sfx = Some g ∧
    ∀ pre' sfx', s = pre' +:+ sfx' → String.length pre' < String.length pre →
                 match_zip_here sfx' = None.
Proof.
  unfold findall_zip. induction s as [|c s IH]; [done|].
  cbn [findall_zip_from].
  destruct (match_zip_here (String c s)) as [g'|] eqn:Hm.
  - intros [= -> _]. exists EmptyString, (String c s).
    split_and!; [done..|]. intros pre' sfx' _ Hlt. simpl in Hlt. lia.
  - intros Hf. destruct (IH Hf) as (pre & sfx & -> & Hsfx & Hmin).
    exists (String c pre), sfx. split_and!; [done..|].
    intros pre' sfx' E Hlt. destruct pre' as [|c' pre'].
    + rewrite app_empty_l in E. by subst sfx'.
    + rewrite !app_cons in E. injection E as <- E.
      apply (Hmin pre' sfx' E). simpl in Hlt. lia.
Qed.

Lemma zip_code_text_match code post :
  zip_code_text code → ∃ g, match_zip_here (code +:+ post) = Some g.
Proof.
  intros (Hlen & Hd & H9).
  destruct code as [|c1 [|c2 [|c3 [|c4 [|c5 [|c6 [|c7 [|c8 [|c9 [|]]]]]]]]]]; try done.
  exists (String c1 (String c2 (String c3 (String c4 (String c5 EmptyString)))),
          String c6 (String c7 (String c8 (String c9 EmptyString)))).
  apply match_zip_here_Some. exists post.
  simpl in Hd. repeat (apply andb_true_iff in Hd as [? Hd]).
  split_and!; try done; simpl;
    by repeat match goal with Hc : is_digit _ = true |- _ => rewrite Hc; clear Hc end.
Qed.

(** X2: the zip returned is read off the leftmost nine-digit code that
    begins with 9 in the first line that begins with Address: primary
    component times 10000 plus the extension is the number the nine digits
    spell, the extension is at most 9999, and no such code begins further
    to the left in that line. *)
Theorem zip_is_leftmost_code (file : string) (ha : HeaderAddress)
    (a : nat) (address_line : string) :
  get_zip_header_line_col_names file = Returned ha →
  first_line_with "Address" (readlines file) a address_line →
  ∃ pre code post,
    address_line = pre +:+ code +:+ post ∧ zip_code_text code ∧
    ((zip_5_4 ha).1 * 10000 + (zip_5_4 ha).2 = int code)%Z ∧
    (0 ≤ (zip_5_4 ha).2 ≤ 9999)%Z ∧
    ∀ pre' code' post',
      address_line = pre' +:+ code' +:+ post' → zip_code_text code' →
      String.length pre ≤ String.length pre'.
Proof.
  unfold get_zip_header_line_col_names.
  intros (a' & al & g1 & g2 & gs & h & hl & Ha & Hz & _ & ->)%locate_in_lines_Returned
    Ha'%first_line_startswith_Some.
  rewrite Ha in Ha'. injection Ha' as -> ->.
  destruct (findall_zip_leftmost _ _ _ Hz) as (pre & sfx & -> & Hm & Hmin).
  pose proof (match_zip_here_range _ _ _ Hm) as [_ Hext].
  apply match_zip_here_Some in Hm as (post & -> & Hl1 & Hl2 & Hd1 & Hd2 & H9).
  exists pre, (g1 +:+ g2), post. cbn [zip_5_4 fst snd]. split_and!.
  - by rewrite app_assoc_str.
  - split_and!.
    + rewrite length_app_str. lia.
    + by rewrite all_digits_app, Hd1, Hd2.
    + apply startswith_9 in H9 as [d4 ->]. apply startswith_9.
      exists (d4 +:+ g2). by rewrite app_cons.
  - rewrite int_app, Hl2. change (10 ^ Z.of_nat 4)%Z with 10000%Z. lia.
  - lia.
  - lia.
  - intros pre' code' post' E Hcode.
    destruct (decide (String.length pre ≤ String.length pre')) as [|Hlt]; [done|].
    destruct (zip_code_text_match code' post' Hcode) as [g Hg].
    rewrite (Hmin pre' (code' +:+ post') E) in Hg; [done|lia].
Qed.

Lemma zip_is_leftmost_code_witness :
  ∃ pre code post,
    "Address,1 MAIN ST SAN FRANCISCO CA 941101234" +:+ String LF EmptyString
    = pre +:+ code +:+ post ∧ zip_code_text code ∧
    ((zip_5_4 sample_header_address).1 * 10000 + (zip_5_4 sample_header_address).2
     = int code)%Z ∧
    (0 ≤ (zip_5_4 sample_header_address).2 ≤ 9999)%Z ∧
    ∀ pre' code' post',
      "Address,1 MAIN ST SAN FRANCISCO CA 941101234" +:+ String LF EmptyString
      = pre' +:+ code' +:+ post' → zip_code_text code' →
      String.length pre ≤ String.length pre'.
Proof.
  apply (zip_is_leftmost_code sample_file sample_header_address 1).
  - reflexivity.
  - apply first_line_startswith_Some. reflexivity.
Defined.

(** ** The labels and the lines of the table *)











(** ** More about the pivot *)

Lemma not_NoDup_lookup {A} `{EqDecision A} (l : list A) :
  ¬ NoDup l → ∃ i j x, i < j ∧ l !! i = Some x ∧ l !! j = Some x.
Proof.
  induction l as [|x l IH]; intros Hnd; [by destruct Hnd; constructor|].
  destruct (decide (x ∈ l)) as [Hin|Hnin].
  - apply list_elem_of_lookup_1 in Hin as [j Hj].
    exists 0, (S j), x. split_and!; [lia|done..].
  - destruct IH as (i & j & y & Hlt & Hi & Hj).
    { intros Hl. apply Hnd. by constructor. }
    exists (S i), (S j), y. split_and!; [lia|done..].
Qed.

Section PivotShape.
Context {Row R C V : Type} `{EqDecision R, EqDecision C}.
Context (leR : relation R) `{!RelDecision leR}.
Context (leC : relation C) `{!RelDecision leC}.
Context (index_of : Row → R) (columns_of : Row → C) (values_of : Row → V).

Lemma axis_labels_elem {A} `{EqDecision A} (le : relation A) `{!RelDecision le}
    (keys : list A) :
  NoDup (axis_labels le keys) ∧
  length (axis_labels le keys) ≤ length keys ∧
  ∀ k, k ∈ axis_labels le keys ↔ k ∈ keys.
Proof.
  unfold axis_labels. split_and!.
  - rewrite merge_sort_Permutation. apply NoDup_remove_dups.
  - rewrite merge_sort_Permutation. apply length_remove_dups_le.
  - intros k. by rewrite merge_sort_Permutation, elem_of_remove_dups.
Qed.

Lemma iat_pivot df m i j r c :
  pivot leR leC index_of columns_of values_of df = Returned m →
  index m !! i = Some r → columns m !! j = Some c →
  iat m i j
  = values_of ∘ snd <$> list_find (λ row, (index_of row, columns_of row) = (r, c)) df.
Proof.
  intros [_ ->]%pivot_Returned. cbn [index columns]. intros Hi Hj.
  unfold iat. cbn [values]. rewrite list_lookup_fmap, Hi. simpl.
  by rewrite list_lookup_fmap, Hj.
Qed.

(** X8: when the pivot raises, it is the duplicate-entries error and two
    rows at different positions of the table map to the same cell: the
    pivot fails for no other reason. *)
Theorem pivot_raises_only_on_duplicates (df : list Row) (e : Exception) :
  pivot leR leC index_of columns_of values_of df = Raised e →
  e = ValueError duplicate_entries_msg ∧
  ∃ i j ri rj, i < j ∧ df !! i = Some ri ∧ df !! j = Some rj ∧
               index_of ri = index_of rj ∧ columns_of ri = columns_of rj.
Proof.
  intros [Hdup ->]%pivot_Raised. split; [done|].
  apply not_NoDup_lookup in Hdup as (i & j & [r c] & Hlt & Hi & Hj).
  rewrite list_lookup_fmap in Hi, Hj.
  destruct (df !! i) as [ri|] eqn:Ei; [|done].
  destruct (df !! j) as [rj|] eqn:Ej; [|done].
  simpl in Hi, Hj. exists i, j, ri, rj. split_and!; try done; congruence.
Qed.

(** X9: the frame of a pivot is rectangular and no larger than the table:
    there is one row of cells for each row label, each as long as the
    column labels, and there are at most as many row labels and as many
    column labels as the table has rows. *)
Theorem pivot_shape (df : list Row) (m : DataFrame R C V) :
  pivot leR leC index_of columns_of values_of df = Returned m →
  length (values m) = length (index m) ∧
  Forall (λ cells, length cells = length (columns m)) (values m) ∧
  length (index m) ≤ length df ∧ length (columns m) ≤ length df.
Proof.
  intros [_ ->]%pivot_Returned. cbn [index columns values].
  destruct (axis_labels_elem leR (index_of <$> df)) as (_ & HlenR & _).
  destruct (axis_labels_elem leC (columns_of <$> df)) as (_ & HlenC & _).
  rewrite length_fmap in HlenR. rewrite length_fmap in HlenC.
  split_and!; [| |done..].
  - by rewrite length_fmap.
  - apply Forall_fmap, Forall_forall. intros r _. simpl. by rewrite length_fmap.
Qed.

(** X10: no row of the table is lost in a pivot: the value of every row
    is in the frame, in the cell of the row's labels. *)
Theorem pivot_keeps_every_row (df : list Row) (m : DataFrame R C V) (row : Row) :
  pivot leR leC index_of columns_of values_of df = Returned m →
  row ∈ df →
  ∃ i j, index m !! i = Some (index_of row) ∧
         columns m !! j = Some (columns_of row) ∧
         iat m i j = Some (values_of row).
Proof.
  intros Hp Hrow. pose proof Hp as [Hnd Hm]%pivot_Returned.
  destruct (axis_labels_elem leR (index_of <$> df)) as (_ & _ & HelR).
  destruct (axis_labels_elem leC (columns_of <$> df)) as (_ & _ & HelC).
  assert (index_of row ∈ index m) as [i Hi]%list_elem_of_lookup_1.
  { rewrite Hm. cbn [index]. apply HelR, list_elem_of_fmap. eauto. }
  assert (columns_of row ∈ columns m) as [j Hj]%list_elem_of_lookup_1.
  { rewrite Hm. cbn [columns]. apply HelC, list_elem_of_fmap. eauto. }
  exists i, j. split_and!; [done..|].
  rewrite (iat_pivot df m i j _ _ Hp Hi Hj).
  apply list_elem_of_lookup_1 in Hrow as [a Ha].
  destruct (list_find (λ row', (index_of row', columns_of row')
                               = (index_of row, columns_of row)) df)
    as [[b row']|] eqn:Hf.
  - apply list_find_Some in Hf as (Hb & E & _).
    assert (a = b) as ->.
    { eapply (NoDup_lookup _ _ _ _ Hnd); rewrite list_lookup_fmap.
      - by rewrite Ha.
      - by rewrite Hb, <- E. }
    simpl. congruence.
  - apply list_find_None in Hf.
    eapply Forall_lookup_1 in Hf; [|exact Ha]. done.
Qed.
End PivotShape.

Lemma pivot_raises_only_on_duplicates_witness :
  ValueError duplicate_entries_msg = ValueError duplicate_entries_msg ∧
  ∃ i j ri rj, i < j ∧ repeated_hour_usage !! i = Some ri ∧
               repeated_hour_usage !! j = Some rj ∧
               START_TIME ri = START_TIME rj ∧ DATE ri = DATE rj.
Proof.
  apply (pivot_raises_only_on_duplicates String.le String.le START_TIME DATE USAGE
           repeated_hour_usage (ValueError duplicate_entries_msg)).
  vm_compute. reflexivity.
Defined.

Lemma pivot_shape_witness :
  ∃ m, electric_map_df two_unit_usage = Returned m ∧
       length (values m) = length (index m) ∧
       Forall (λ cells, length cells = length (columns m)) (values m) ∧
       length (index m) ≤ length two_unit_usage ∧
       length (columns m) ≤ length two_unit_usage.
Proof.
  eexists. split; [vm_compute; reflexivity|].
  apply (pivot_shape String.le String.le START_TIME DATE USAGE two_unit_usage).
  vm_compute. reflexivity.
Defined.

Lemma pivot_keeps_every_row_witness :
  ∃ m, electric_map_df two_unit_usage = Returned m ∧
       ∃ i j, index m !! i = Some "01:00" ∧ columns m !! j = Some "2024-01-02" ∧
              iat m i j = Some 0.5%float.
Proof.
  eexists. split; [vm_compute; reflexivity|].
  apply (pivot_keeps_every_row String.le String.le START_TIME DATE USAGE two_unit_usage _
           {| DATE := "2024-01-02"; START_TIME := "01:00";
              USAGE := 0.5; COST := 0.25; PRICEPERKWH := 0.5 |}).
  - vm_compute. reflexivity.
  - right. left.
Defined.

(** ** More about de-duplication *)

Section Deduplication.
Context {Row K : Type} `{EqDecision K}.
Context (subset : Row → K).

Lemma drop_duplicated_from_distinct seen df :
  NoDup (subset <$> df) → (∀ row, row ∈ df → subset row ∉ seen) →
  boolean_index df (negb <$> duplicated_from seen (subset <$> df)) = df.
Proof.
  revert seen. induction df as [|row df IH]; intros seen Hnd Hseen; [done|].
  rewrite fmap_cons in Hnd. apply NoDup_cons in Hnd as [Hrow Hnd].
  rewrite drop_duplicated_from_cons.
  rewrite decide_False by (apply Hseen; left).
  f_equal. apply IH; [done|].
  intros r Hr [E|Hin]%elem_of_cons.
  - apply Hrow. rewrite <- E. apply list_elem_of_fmap. eauto.
  - apply (Hseen r); [by right|done].
Qed.

(** X11: de-duplication leaves a table whose keys are distinct as it is,
    and de-duplicating twice is the same as once. *)
Theorem drop_duplicated_fixed (df : list Row) :
  (NoDup (subset <$> df) → drop_duplicated subset df = df) ∧
  drop_duplicated subset (drop_duplicated subset df) = drop_duplicated subset df.
Proof.
  assert (∀ df', NoDup (subset <$> df') → drop_duplicated subset df' = df') as Hfix.
  { intros df' Hnd. apply drop_duplicated_from_distinct; [done|].
    intros row _. apply not_elem_of_nil. }
  split; [apply Hfix|]. apply Hfix.
  by destruct (drop_duplicated_from_spec subset [] df) as (_ & Hnd & _).
Qed.

(** X12: de-duplication neither adds nor loses a key: the keys of the
    result are those of the source, and the result has exactly one row
    for each distinct key of the source, so never more rows than it. *)
Theorem drop_duplicated_keys (df : list Row) :
  (∀ k, k ∈ subset <$> drop_duplicated subset df ↔ k ∈ subset <$> df) ∧
  length (drop_duplicated subset df) = length (remove_dups (subset <$> df)) ∧
  length (drop_duplicated subset df) ≤ length df.
Proof.
  destruct (drop_duplicated_from_spec subset [] df) as (Hsub & Hnd & _ & Hfind).
  cbv zeta in Hsub, Hnd, Hfind.
  change (boolean_index _ _) with (drop_duplicated subset df) in Hsub, Hnd, Hfind.
  assert (∀ k, k ∈ subset <$> drop_duplicated subset df ↔ k ∈ subset <$> df) as Hkeys.
  { intros k. rewrite !list_elem_of_fmap. split.
    - intros (row & -> & Hrow). exists row. split; [done|].
      by eapply elem_of_sublist.
    - intros (row & -> & Hrow).
      destruct (list_find (λ r, subset r = subset row) (drop_duplicated subset df))
        as [[i r]|] eqn:Hf.
      + apply list_find_Some in Hf as (Hi & E & _).
        exists r. split; [done|]. by eapply list_elem_of_lookup_2.
      + exfalso. specialize (Hfind (subset row) (not_elem_of_nil _)).
        rewrite Hf in Hfind. simpl in Hfind. symmetry in Hfind.
        apply fmap_None, list_find_None in Hfind.
        rewrite Forall_forall in Hfind. by apply (Hfind row). }
  split_and!; [done| |by apply sublist_length].
  rewrite <- (length_fmap subset). apply Permutation_length.
  apply NoDup_Permutation; [done|apply NoDup_remove_dups|].
  intros k. by rewrite Hkeys, elem_of_remove_dups.
Qed.
End Deduplication.

Lemma drop_duplicated_fixed_witness :
  drop_duplicated (λ row, (Weather.DATE row, Weather.TIME row))
    (hourly_weather january_first)
  = hourly_weather january_first.
Proof.
  apply (proj1 (drop_duplicated_fixed (λ row, (Weather.DATE row, Weather.TIME row))
                  (hourly_weather january_first))).
  compute_done.
Defined.

(** X13: a cell of the weather frame holds the temperature of the first
    observation of the source table with the date of its column and the
    time of its row, and is absent when there is no such observation. *)
Theorem weather_cell_is_first_observation
    (weather_hourly_df : list Weather.Observation) (m : DataFrame time date float)
    (i j : nat) (t : time) (d : date) :
  weather_map_df weather_hourly_df = Returned m →
  index m !! i = Some t → columns m !! j = Some d →
  iat m i j
  = Weather.TEMP_F ∘ snd
    <$> list_find (λ row, (Weather.DATE row, Weather.TIME row) = (d, t)) weather_hourly_df.
Proof.
  unfold weather_map_df. intros Hp Hi Hj.
  rewrite (iat_pivot _ _ _ _ _ _ _ _ _ _ _ Hp Hi Hj).
  destruct (drop_duplicated_from_spec (λ row, (Weather.DATE row, Weather.TIME row)) []
              weather_hourly_df) as (_ & _ & _ & Hfind).
  cbv zeta in Hfind.
  change (boolean_index _ _) with (deduplicate_weather weather_hourly_df) in Hfind.
  specialize (Hfind (d, t) (not_elem_of_nil _)).
  rewrite (list_find_ext _ (λ row, (Weather.DATE row, Weather.TIME row) = (d, t))).
  - by rewrite !option_fmap_compose, Hfind.
  - intros row. split; intros [= -> ->]; done.
Qed.

Lemma weather_cell_is_first_observation_witness :
  ∃ m, weather_map_df repeated_hour_weather = Returned m ∧
       iat m 1 0
       = Weather.TEMP_F ∘ snd
         <$> list_find (λ row, (Weather.DATE row, Weather.TIME row)
                               = (clocks_back, on_the_hour 1))
               repeated_hour_weather.
Proof.
  eexists. split; [vm_compute; reflexivity|].
  apply (weather_cell_is_first_observation repeated_hour_weather).
  - vm_compute. reflexivity.
  - reflexivity.
  - reflexivity.
Defined.

(** ** More about the ticks *)

Lemma get_heatmap_ticks_Some {R V} (df : DataFrame R date V) :
  NoDup (columns df) → Forall date_ok (columns df) →
  get_heatmap_ticks df
  = Some {| x_ticks := fst <$> first_of_month_from 0 (columns df);
            x_tick_labels := strftime_b_Y <$> (snd <$> first_of_month_from 0 (columns df));
            y_ticks := [0; 4; 8; 12; 16; 20; 24];
            y_tick_labels :=
              ["00:00"; "04:00"; "08:00"; "12:00"; "16:00"; "20:00"; "24:00"] |}.
Proof.
  intros Hnd Hok. unfold get_heatmap_ticks.
  rewrite (filter_first_of_month 0) by done.
  pose proof (mapM_get_loc_first_of_month [] (columns df) Hnd) as Hm.
  cbn [app length] in Hm. rewrite Hm. done.
Qed.

Lemma first_of_month_from_positions i cols :
  StronglySorted lt (fst <$> first_of_month_from i cols) ∧
  Forall (λ j, i ≤ j < i + length cols) (fst <$> first_of_month_from i cols).
Proof.
  revert i. induction cols as [|d cols IH]; intros i; [by split; constructor|].
  destruct (IH (S i)) as [Hs Hb]. cbn [first_of_month_from length].
  assert (Forall (λ j, i ≤ j < i + S (length cols))
            (fst <$> first_of_month_from (S i) cols)) as Hb'.
  { eapply Forall_impl; [exact Hb|]. intros j ?. simpl in *. lia. }
  case_decide; [|done]. rewrite fmap_cons. cbn [fst]. split.
  - constructor; [done|]. eapply Forall_impl; [exact Hb|]. intros j ?. simpl in *. lia.
  - constructor; [lia|done].
Qed.

(** X14: on a frame whose column labels are distinct dates the ticks are
    well formed: the x ticks increase strictly, each is the position of a
    column, there is one label for each x tick and one for each y tick. *)
Theorem heatmap_ticks_well_formed {R V} (df : DataFrame R date V) (t : CustomTicks) :
  NoDup (columns df) → Forall date_ok (columns df) →
  get_heatmap_ticks df = Some t →
  StronglySorted lt (x_ticks t) ∧
  Forall (λ i, i < length (columns df)) (x_ticks t) ∧
  length (x_tick_labels t) = length (x_ticks t) ∧
  length (y_tick_labels t) = length (y_ticks t).
Proof.
  intros Hnd Hok. rewrite (get_heatmap_ticks_Some df Hnd Hok). intros [= <-].
  cbn [x_ticks x_tick_labels y_ticks y_tick_labels].
  destruct (first_of_month_from_positions 0 (columns df)) as [Hs Hb].
  split_and!; [done| |by rewrite !length_fmap|done].
  eapply Forall_impl; [exact Hb|]. intros j ?. simpl in *. lia.
Qed.

Lemma heatmap_ticks_well_formed_witness :
  ∃ t, get_heatmap_ticks three_day_frame = Some t ∧
       StronglySorted lt (x_ticks t) ∧
       Forall (λ i, i < length (columns three_day_frame)) (x_ticks t) ∧
       length (x_tick_labels t) = length (x_ticks t) ∧
       length (y_tick_labels t) = length (y_ticks t).
Proof.
  eexists. split; [vm_compute; reflexivity|].
  apply (heatmap_ticks_well_formed three_day_frame).
  - compute_done.
  - compute_done.
  - vm_compute. reflexivity.
Defined.

(** X15: the ticks of the weather frame are always defined (no label
    look-up fails): for every weather table with proper dates the weather
    pivot returns a frame, its ticks are computed, every x tick is the
    column of a first day of a month that occurs in the table, and every
    such day of the table has its tick. *)
Theorem weather_ticks_defined (weather_hourly_df : list Weather.Observation) :
  Forall (λ row, date_ok (Weather.DATE row)) weather_hourly_df →
  ∃ m t, weather_map_df weather_hourly_df = Returned m ∧
         get_heatmap_ticks m = Some t ∧
         (∀ i, i ∈ x_ticks t →
               ∃ row, row ∈ weather_hourly_df ∧ day (Weather.DATE row) = 1 ∧
                      columns m !! i = Some (Weather.DATE row)) ∧
         (∀ row, row ∈ weather_hourly_df → day (Weather.DATE row) = 1 →
                 ∃ i, i ∈ x_ticks t ∧ columns m !! i = Some (Weather.DATE row)).
Proof.
  intros Hok.
  destruct (drop_duplicated_from_spec (λ row, (Weather.DATE row, Weather.TIME row)) []
              weather_hourly_df) as (Hsub & Hnd & _ & Hfind).
  cbv zeta in Hsub, Hnd, Hfind.
  change (boolean_index _ _) with (deduplicate_weather weather_hourly_df)
    in Hsub, Hnd, Hfind.
  destruct (weather_map_df weather_hourly_df) as [m|e] eqn:Hp; cycle 1.
  { apply pivot_Raised in Hp as [Hdup _]. exfalso. apply Hdup.
    apply (NoDup_fmap_1 (λ p : time * date, (p.2, p.1))).
    by rewrite <- list_fmap_compose. }
  pose proof Hp as [_ Hm]%pivot_Returned.
  destruct (axis_labels_elem date_le
              (Weather.DATE <$> deduplicate_weather weather_hourly_df))
    as (HndC & _ & HelC).
  assert (columns m
          = axis_labels date_le (Weather.DATE <$> deduplicate_weather weather_hourly_df))
    as Hcols by (by rewrite Hm).
  assert (∀ d, d ∈ columns m ↔ ∃ row, row ∈ weather_hourly_df ∧ Weather.DATE row = d)
    as Hdates.
  { intros d. rewrite Hcols, HelC, list_elem_of_fmap. split.
    - intros (row & -> & Hrow). exists row. split; [|done]. by eapply elem_of_sublist.
    - intros (row & Hrow & <-).
      destruct (list_find (λ r, (Weather.DATE r, Weather.TIME r)
                                = (Weather.DATE row, Weather.TIME row))
                  (deduplicate_weather weather_hourly_df)) as [[k r]|] eqn:Hf.
      + apply list_find_Some in Hf as (Hk & [= E _] & _).
        exists r. split; [done|]. by eapply list_elem_of_lookup_2.
      + exfalso. specialize (Hfind (Weather.DATE row, Weather.TIME row)
                               (not_elem_of_nil _)).
        rewrite Hf in Hfind. simpl in Hfind. symmetry in Hfind.
        apply fmap_None, list_find_None in Hfind.
        rewrite Forall_forall in Hfind. by apply (Hfind row). }
  assert (Forall date_ok (columns m)) as HokC.
  { apply Forall_forall. intros d (row & Hrow & <-)%Hdates.
    rewrite Forall_forall in Hok. by apply Hok. }
  rewrite <- Hcols in HndC.
  exists m. eexists. split; [done|].
  split; [by apply get_heatmap_ticks_Some|]. cbn [x_ticks]. split.
  - intros i ([k d] & -> & (_ & Hl & Hd)%first_of_month_from_elem)%list_elem_of_fmap.
    simpl in *. rewrite Nat.sub_0_r in Hl.
    assert (d ∈ columns m) as (row & Hrow & <-)%Hdates
      by (by eapply list_elem_of_lookup_2).
    by exists row.
  - intros row Hrow Hd.
    assert (Weather.DATE row ∈ columns m) as [i Hi]%list_elem_of_lookup_1.
    { apply Hdates. by exists row. }
    exists i. split; [|done]. apply list_elem_of_fmap.
    exists (i, Weather.DATE row). split; [done|].
    apply first_of_month_from_elem. rewrite Nat.sub_0_r. split_and!; [lia|done..].
Qed.

Lemma weather_ticks_defined_witness :
  ∃ m t, weather_map_df (hourly_weather february_first) = Returned m ∧
         get_heatmap_ticks m = Some t ∧
         (∀ i, i ∈ x_ticks t →
               ∃ row, row ∈ hourly_weather february_first ∧
                      day (Weather.DATE row) = 1 ∧
                      columns m !! i = Some (Weather.DATE row)) ∧
         (∀ row, row ∈ hourly_weather february_first → day (Weather.DATE row) = 1 →
                 ∃ i, i ∈ x_ticks t ∧ columns m !! i = Some (Weather.DATE row)).
Proof.
  apply (weather_ticks_defined (hourly_weather february_first)). compute_done.
Defined.

(** ** Temperatures and prices at the edge *)

(** X16: a missing temperature stays missing: the Fahrenheit value of
    not-a-number is not-a-number (not 32), and that of an infinity is the
    same infinity. *)
Theorem TEMP_F_of_missing_temp (temp : float) :
  (Prim2SF temp = S754_nan → Prim2SF (TEMP_F_of_temp temp) = S754_nan) ∧
  (∀ sign, Prim2SF temp = S754_infinity sign →
           Prim2SF (TEMP_F_of_temp temp) = S754_infinity sign).
Proof.
  unfold TEMP_F_of_temp. rewrite add_spec, div_spec, mul_spec. split.
  - intros ->. reflexivity.
  - intros sign ->. by destruct sign.
Qed.

Lemma TEMP_F_of_missing_temp_witness :
  Prim2SF (TEMP_F_of_temp nan) = S754_nan.
Proof. apply (proj1 (TEMP_F_of_missing_temp nan)). reflexivity. Defined.

(** X17: which price a row without usage gets: not-a-number when its
    cost is zero, and the infinity of the sign of its cost otherwise. *)
Theorem zero_usage_price (r : RawUsageRow) (cost : float) :
  raw_USAGE r = 0.0%float →
  float_of_str (remove_char "$" (raw_COST r)) = FloatValue cost →
  ∃ rec, process_row r = Some rec ∧
         (∀ sign, Prim2SF cost = S754_zero sign →
                  Prim2SF (PRICEPERKWH rec) = S754_nan) ∧
         (∀ sign mant e, Prim2SF cost = S754_finite sign mant e →
                         Prim2SF (PRICEPERKWH rec) = S754_infinity sign).
Proof.
  intros Hu Hc. unfold process_row. rewrite Hc, Hu.
  eexists. split; [reflexivity|]. cbn [PRICEPERKWH].
  rewrite div_spec. change (Prim2SF 0) with (S754_zero false). split.
  - intros sign ->. reflexivity.
  - intros sign mant e ->. by destruct sign.
Qed.

Lemma zero_usage_price_witness :
  ∃ rec, process_row zero_usage_row = Some rec ∧
         (∀ sign, Prim2SF 0%float = S754_zero sign →
                  Prim2SF (PRICEPERKWH rec) = S754_nan) ∧
         (∀ sign mant e, Prim2SF 0%float = S754_finite sign mant e →
                         Prim2SF (PRICEPERKWH rec) = S754_infinity sign).
Proof.
  apply (zero_usage_price zero_usage_row 0%float).
  - reflexivity.
  - vm_compute. reflexivity.
Defined.
